(** * galaxy_importer.loaders.doc_string

    A shallow embedding of [DocStringLoader] (galaxy_importer/loaders/doc_string.py)
    and the properties of its doc-string normalisation.

    - JSON values, as [json.loads] builds them, are the inductive [json]; a
      Python dict is an association list in insertion order (the order of
      keys matters to the list of records the loader builds).
    - [logger] calls and the external process are events of a writer monad
      [M]; an exception is the [Raise] outcome, caught by [try_except].
    - [handle_nested_tables] recurses on rows it has just built, so it takes
      a fuel argument; [handle_nested_tables_returns] shows that the depth of
      the object is always enough fuel.
    - The recursion limit of the interpreter is not modelled: [deepcopy] and
      the recursion are total here, where Python raises [RecursionError] on
      values nested deeper than its limit. *)

From Stdlib Require Import List String Ascii ZArith NArith Bool Arith Lia.
From Stdlib Require Import Sorting.Permutation Sorting.Sorted.
From Stdlib Require Import Floats.SpecFloat.
Import ListNotations.
Set Warnings "-register-all".
Local Open Scope string_scope.
Local Open Scope list_scope.

(** ** JSON values and Python dicts *)

Inductive json : Type :=
| JNull
| JBool (b : bool)
| JInt (z : Z)
| JFloat (f : spec_float)
| JStr (s : string)
| JList (l : list json)
| JDict (d : list (string * json)).

(** A dict with [str] keys, in insertion order. *)
Definition dict : Type := list (string * json).

Module Dict.

(** [d.get(k)]: [None] when the key is absent. *)
Fixpoint get (k : string) (d : dict) : option json :=
  match d with
  | [] => None
  | (k', v) :: d' => if String.eqb k k' then Some v else get k d'
  end.

(** [k in d]. *)
Definition mem (k : string) (d : dict) : bool :=
  match get k d with Some _ => true | None => false end.

(** [d[k] = v]: an existing key keeps its position, a new key goes last. *)
Fixpoint set (k : string) (v : json) (d : dict) : dict :=
  match d with
  | [] => [(k, v)]
  | (k', v') :: d' =>
      if String.eqb k k' then (k, v) :: d' else (k', v') :: set k v d'
  end.

(** [list(d)], the keys in iteration order. *)
Definition keys (d : dict) : list string := map fst d.

(** [{**base, **ext}]: the entries of [ext] written into [base] in order. *)
Definition merge (base ext : dict) : dict :=
  fold_left (fun acc kv => set (fst kv) (snd kv) acc) ext base.

End Dict.

(** [isinstance(v, dict)]. *)
Definition is_dict (v : json) : bool :=
  match v with JDict _ => true | _ => false end.

(** Truth value of a JSON value ([bool(v)]). *)
Definition truthy (v : json) : bool :=
  match v with
  | JNull => false
  | JBool b => b
  | JInt z => negb (Z.eqb z 0)
  | JFloat f => match f with S754_zero _ => false | _ => true end
  | JStr s => negb (String.eqb s "")
  | JList l => match l with [] => false | _ => true end
  | JDict d => match d with [] => false | _ => true end
  end.

(** Keys are unique at every level of a value built by [json.loads]. *)
Fixpoint nodupb (l : list string) : bool :=
  match l with
  | [] => true
  | x :: l' => negb (existsb (String.eqb x) l') && nodupb l'
  end.

Fixpoint wf (v : json) : bool :=
  match v with
  | JList l => forallb wf l
  | JDict d => nodupb (map fst d) && forallb (fun kv => wf (snd kv)) d
  | _ => true
  end.

Definition wf_dict (d : dict) : bool := wf (JDict d).

(** Nesting depth of mappings and lists. *)
Fixpoint depth (v : json) : nat :=
  match v with
  | JList l => S (fold_right (fun x acc => Nat.max (depth x) acc) 0 l)
  | JDict d => S (fold_right (fun kv acc => Nat.max (depth (snd kv)) acc) 0 d)
  | _ => 0
  end.

(** ** Outcomes, events and the monad *)

Inductive exn : Type :=
| TypeError
| AttributeError
| KeyError
| JSONDecodeError.

Definition exn_eqb (a b : exn) : bool :=
  match a, b with
  | TypeError, TypeError | AttributeError, AttributeError
  | KeyError, KeyError | JSONDecodeError, JSONDecodeError => true
  | _, _ => false
  end.

Inductive result (A : Type) : Type :=
| Ok (a : A)
| Raise (e : exn)
| OutOfFuel.
Arguments Ok {A} a.
Arguments Raise {A} e.
Arguments OutOfFuel {A}.

(** What the loader tells its logger, and the processes it starts. *)
Inductive event : Type :=
| LogInfo (msg : string)
| LogWarning (msg : string)
| LogWarningNotDictOfDicts (dict_of_dict : dict)
| LogDebugCmd (cmd : list string)
| LogErrorAnsibleDoc (cmd : list string) (rc : Z) (err : string)
| Popen (cmd : list string) (cwd : string).

Definition M (A : Type) : Type := (result A * list event)%type.

Definition ret {A} (a : A) : M A := (Ok a, []).
Definition raise {A} (e : exn) : M A := (Raise e, []).
Definition out_of_fuel {A} : M A := (OutOfFuel, []).
Definition emit (e : event) : M unit := (Ok tt, [e]).

Definition bind {A B} (m : M A) (f : A -> M B) : M B :=
  match m with
  | (Ok a, w) => let (r, w') := f a in (r, w ++ w')
  | (Raise e, w) => (Raise e, w)
  | (OutOfFuel, w) => (OutOfFuel, w)
  end.

(** [try: m  except e: h]. *)
Definition try_except {A} (m : M A) (e : exn) (h : M A) : M A :=
  match m with
  | (Raise e', w) => if exn_eqb e' e then let (r, w') := h in (r, w ++ w') else m
  | _ => m
  end.

Notation "x <- c1 ;; c2" := (bind c1 (fun x => c2))
  (at level 61, c1 at next level, right associativity).
Notation "c1 ;; c2" := (bind c1 (fun _ => c2))
  (at level 61, right associativity).

(** A comprehension or a [for] loop building a list: left to right, stopping
    at the first exception. *)
Fixpoint mapM {A B} (f : A -> M B) (l : list A) : M (list B) :=
  match l with
  | [] => ret []
  | x :: l' => y <- f x ;; ys <- mapM f l' ;; ret (y :: ys)
  end.

(** ** [_transform_doc_strings] *)

(** [deepcopy]: values of the model are immutable trees, a copy is the value. *)
Definition deepcopy (v : json) : json := v.

(** [isinstance(key, dict)] for a key of a dict: the key is a [str]. *)
Definition key_isinstance_dict (key : string) : bool := is_dict (JStr key).

(** [{"name": key, **deepcopy(dict_of_dict[key])}]: unpacking a value that is
    not a mapping is a [TypeError]. *)
Definition named_record (dict_of_dict : dict) (key : string) : M dict :=
  match Dict.get key dict_of_dict with
  | None => raise KeyError
  | Some v =>
      match deepcopy v with
      | JDict fields => ret (Dict.merge [("name", JStr key)] fields)
      | _ => raise TypeError
      end
  end.

Definition dict_to_named_list (dict_of_dict : dict) : M (list dict) :=
  try_except
    (mapM (named_record dict_of_dict) (Dict.keys dict_of_dict))
    TypeError
    (emit (LogWarningNotDictOfDicts dict_of_dict) ;;
     mapM (named_record dict_of_dict)
          (filter key_isinstance_dict (Dict.keys dict_of_dict))).

(** [obj] is always a row built by [dict_to_named_list], a dict. The rows are
    updated in place in the source; they are fresh copies reachable from
    [obj[table_key]] only, so the update is the list of the updated rows. *)
Fixpoint handle_nested_tables (fuel : nat) (obj : dict) (table_key : string)
  : M dict :=
  match fuel with
  | O => out_of_fuel
  | S fuel' =>
      match Dict.get table_key obj with
      | Some (JDict table) =>
          rows <- dict_to_named_list table ;;
          rows' <- mapM (fun row => handle_nested_tables fuel' row table_key) rows ;;
          ret (Dict.set table_key (JList (map JDict rows')) obj)
      | _ => ret obj
      end
  end.

(** [x.get(k, default)] on an arbitrary value: only a dict has [get]. *)
Definition py_get (x : json) (k : string) (default : json) : M json :=
  match x with
  | JDict d => ret (match Dict.get k d with Some v => v | None => default end)
  | _ => raise AttributeError
  end.

(** The two steps of [_transform_doc_strings]. [doc] is the object stored
    under ["doc"] when the key is present, and a fresh empty dict otherwise:
    a write to [doc] reaches [data] in the first case only. *)
Definition transform_options (fuel : nat) (data : dict) : M dict :=
  doc <- py_get (JDict data) "doc" (JDict []) ;;
  options <- py_get doc "options" JNull ;;
  match doc, options with
  | JDict doc_fields, JDict table =>
      rows <- dict_to_named_list table ;;
      rows' <- mapM (fun d => handle_nested_tables fuel d "suboptions") rows ;;
      let doc' := JDict (Dict.set "options" (JList (map JDict rows')) doc_fields) in
      ret (if Dict.mem "doc" data then Dict.set "doc" doc' data else data)
  | _, _ => ret data
  end.

Definition transform_return (fuel : nat) (data : dict) : M dict :=
  r <- py_get (JDict data) "return" JNull ;;
  match r with
  | JDict table =>
      if truthy r then
        rows <- dict_to_named_list table ;;
        rows' <- mapM (fun d => handle_nested_tables fuel d "contains") rows ;;
        ret (Dict.set "return" (JList (map JDict rows')) data)
      else ret data
  | _ => ret data
  end.

Definition _transform_doc_strings (fuel : nat) (data : json) : M json :=
  match data with
  | JDict fields =>
      fields1 <- transform_options fuel fields ;;
      fields2 <- transform_return fuel fields1 ;;
      ret (JDict fields2)
  | _ => raise AttributeError
  end.

(** ** [DocStringLoader] *)

Record DocStringLoader : Type := {
  path : string;
  fq_collection_name : string;
  cfg_ansible_local_tmp : string;
  plugin_types : option (list string);
  module_path : option string
}.

(** [s.split("/")]. *)
Fixpoint split_slash (s : string) : list string :=
  match s with
  | EmptyString => [""]
  | String c s' =>
      if Ascii.eqb c "/"%char then "" :: split_slash s'
      else match split_slash s' with
           | [] => [String c ""]
           | part :: parts => String c part :: parts
           end
  end.

(** [l[:-3]]. *)
Definition drop_last3 {A} (l : list A) : list A := firstn (List.length l - 3) l.

(** [sorted] on strings. *)
Fixpoint insert_sorted (x : string) (l : list string) : list string :=
  match l with
  | [] => [x]
  | y :: l' => if String.leb x y then x :: l else y :: insert_sorted x l'
  end.

Definition sorted (l : list string) : list string :=
  fold_right insert_sorted [] l.

(** [x.keys()] and [x.items()]: only a dict has them. *)
Definition py_keys (x : json) : M (list string) :=
  match x with
  | JDict d => ret (Dict.keys d)
  | _ => raise AttributeError
  end.

Definition py_items (x : json) : M dict :=
  match x with
  | JDict d => ret d
  | _ => raise AttributeError
  end.

Section Loader.

(** The host: [shutil.which], the process run by [Popen(...).communicate()]
    (return code, stdout, stderr), [json.loads] ([None] for a decoding
    error) and the constant [constants.ANSIBLE_DOC_SUPPORTED_TYPES]. *)
Variable which : string -> option string.
Variable communicate : list string -> string -> Z * string * string.
Variable json_loads : string -> option json.
Variable ANSIBLE_DOC_SUPPORTED_TYPES : list string.

Variable self : DocStringLoader.

Definition _collections_path : string :=
  String.concat "/" (drop_last3 (split_slash (path self))).

Definition _base_ansible_doc_cmd : list string :=
  [ "/usr/bin/env";
    String.append "ANSIBLE_COLLECTIONS_PATHS=" _collections_path;
    String.append "ANSIBLE_COLLECTIONS_PATH=" _collections_path;
    String.append "ANSIBLE_LOCAL_TEMP=" (cfg_ansible_local_tmp self);
    "ansible-doc" ].

(** The part the two [_run_ansible_doc*] methods share: log the command,
    run it, and decode its output unless it failed. *)
Definition run_cmd (cmd : list string) : M json :=
  emit (LogDebugCmd cmd) ;;
  emit (Popen cmd _collections_path) ;;
  let '(returncode, stdout, stderr) := communicate cmd _collections_path in
  if negb (Z.eqb returncode 0) then
    emit (LogErrorAnsibleDoc cmd returncode stderr) ;;
    ret (JDict [])
  else
    match json_loads stdout with
    | Some v => ret v
    | None => raise JSONDecodeError
    end.

Definition list_cmd (plugin_type : string) : list string :=
  let opts :=
    match module_path self with
    | Some p => if String.eqb p "" then ["--list"; "--type"; plugin_type] else ["-M"; p]
    | None => ["--list"; "--type"; plugin_type]
    end in
  (_base_ansible_doc_cmd ++ opts ++ ["--json"; fq_collection_name self])%list.

Definition doc_cmd (plugin_type : string) (plugins : list string) : list string :=
  let opts :=
    match module_path self with
    | Some p => if String.eqb p "" then ["--type"; plugin_type] else ["-M"; p]
    | None => ["--type"; plugin_type]
    end in
  (_base_ansible_doc_cmd ++ opts ++ ["--json"] ++ plugins)%list.

Definition _run_ansible_doc_list (plugin_type : string) : M json :=
  run_cmd (list_cmd plugin_type).

Definition _run_ansible_doc (plugin_type : string) (plugins : list string) : M json :=
  run_cmd (doc_cmd plugin_type plugins).

(** The loop of [_process_doc_strings] over [doc_strings.items()]. *)
Fixpoint process_items (fuel : nat) (items : dict) (processed_doc_strings : dict)
  : M dict :=
  match items with
  | [] => ret processed_doc_strings
  | (plugin_key, value) :: items' =>
      value' <- _transform_doc_strings fuel value ;;
      process_items fuel items' (Dict.set plugin_key value' processed_doc_strings)
  end.

Definition _process_doc_strings (fuel : nat) (doc_strings : json) : M dict :=
  items <- py_items doc_strings ;;
  process_items fuel items [].

(** The [for plugin_type in plugin_types] loop of [load]. *)
Fixpoint load_loop (fuel : nat) (types : list string) (docs : dict) : M dict :=
  match types with
  | [] => ret docs
  | plugin_type :: types' =>
      found_plugins <- _run_ansible_doc_list plugin_type ;;
      ks <- py_keys found_plugins ;;
      let plugins := sorted ks in
      match plugins with
      | [] => load_loop fuel types' docs
      | _ :: _ =>
          data <- _run_ansible_doc plugin_type plugins ;;
          data' <- _process_doc_strings fuel data ;;
          load_loop fuel types' (Dict.set plugin_type (JDict data') docs)
      end
  end.

(** [self.plugin_types or constants.ANSIBLE_DOC_SUPPORTED_TYPES]. *)
Definition effective_plugin_types : list string :=
  match plugin_types self with
  | Some (t :: ts) => t :: ts
  | _ => ANSIBLE_DOC_SUPPORTED_TYPES
  end.

(** [not shutil.which("ansible-doc")]: no path, or an empty one. *)
Definition ansible_doc_missing : bool :=
  match which "ansible-doc" with
  | None => true
  | Some p => String.eqb p ""
  end.

Definition load (fuel : nat) : M dict :=
  emit (LogInfo "Getting doc strings via ansible-doc") ;;
  if ansible_doc_missing then
    emit (LogWarning "ansible-doc not found, skipping loading of docstrings") ;;
    ret []
  else
    load_loop fuel effective_plugin_types [].

(** What the two calls return, the events apart: the [list_plugins] and
    [fetch_docs] of the interface. *)
Definition list_plugins (plugin_type : string) : result json :=
  fst (_run_ansible_doc_list plugin_type).

Definition fetch_docs (plugin_type : string) (plugins : list string) : result json :=
  fst (_run_ansible_doc plugin_type plugins).

End Loader.

(** ** [_get_plugins] *)

(** [s.endswith(suffix)]: some tail of [s] is [suffix]. *)
Fixpoint endswith (s suffix : string) : bool :=
  String.eqb s suffix
  || match s with
     | String _ s' => endswith s' suffix
     | EmptyString => false
     end.

(** [s[:-3]] on a string. *)
Definition drop_last3_chars (s : string) : string :=
  substring 0 (String.length s - 3) s.

(** [os.path.join(a, b)] of [posixpath], for two components. *)
Definition os_path_join (a b : string) : string :=
  if match b with String c _ => Ascii.eqb c "/"%char | EmptyString => false end
  then b
  else if String.eqb a "" || endswith a "/" then String.append a b
  else String.append a (String "/"%char b).

(** [os.path.basename(p)] of [posixpath]: what follows the last ["/"]. *)
Definition os_path_basename (p : string) : string := last (split_slash p) "".

Section Plugins.

(** [os.walk(plugin_dir)] as the roots with their files (the directory names
    it also gives are not used), and [os.path.relpath]. *)
Variable os_walk : string -> list (string * list string).
Variable os_path_relpath : string -> string -> string.

Variable self : DocStringLoader.

(** The body of the inner loop for a file that is kept. *)
Definition plugin_fq_name (plugin_dir root filename : string) : string :=
  let file_path := os_path_join root filename in
  let sub_dirs := os_path_relpath root plugin_dir in
  let fq_name_parts := [fq_collection_name self] in
  let fq_name_parts :=
    if negb (String.eqb sub_dirs "") && negb (String.eqb sub_dirs ".")
    then fq_name_parts ++ split_slash sub_dirs
    else fq_name_parts in
  let fq_name_parts :=
    fq_name_parts ++ [drop_last3_chars (os_path_basename file_path)] in
  String.concat "." fq_name_parts.

Definition _get_plugins (plugin_dir : string) : list string :=
  flat_map
    (fun root_files =>
       flat_map
         (fun filename =>
            if negb (endswith filename ".py") || String.eqb filename "__init__.py"
            then []
            else [plugin_fq_name plugin_dir (fst root_files) filename])
         (snd root_files))
    (os_walk plugin_dir).

End Plugins.

(** ** Definitions used by the statements *)

(** The record built for [key] when its value is a mapping. *)
Definition record_of (dict_of_dict : dict) (key : string) : dict :=
  match Dict.get key dict_of_dict with
  | Some (JDict fields) => Dict.merge [("name", JStr key)] fields
  | _ => []
  end.

Definition is_mapping_at (dict_of_dict : dict) (key : string) : bool :=
  match Dict.get key dict_of_dict with
  | Some v => is_dict v
  | None => false
  end.

(** Every value of the dict is a mapping. *)
Definition all_mappings (dict_of_dict : dict) : bool :=
  forallb (is_mapping_at dict_of_dict) (Dict.keys dict_of_dict).

(** One record per key, each named by its key and holding the fields of
    the value of the key. *)
Definition one_record_per_key (m : dict) (rows : list dict) : Prop :=
  List.length rows = List.length m /\
  forall i k fields,
    nth_error (Dict.keys m) i = Some k ->
    Dict.get k m = Some (JDict fields) ->
    exists r,
      nth_error rows i = Some r /\
      Dict.get "name" r = Some (JStr k) /\
      forall x y, Dict.get x fields = Some y -> Dict.get x r = Some y.

(** Depth of the values of a dict. *)
Definition entries_depth (d : dict) : nat :=
  fold_right (fun kv acc => Nat.max (depth (snd kv)) acc) 0 d.

(** [obj'] has the keys of [obj], in the same order, and the same value
    under every key but [table_key]. *)
Definition same_except (table_key : string) (obj obj' : dict) : Prop :=
  Dict.keys obj' = Dict.keys obj /\
  forall k, k <> table_key -> Dict.get k obj' = Dict.get k obj.

(** Every row is the record of an entry of [table], [{"name": key, **value}],
    changed under [table_key] at most. *)
Definition records_of_table (table_key : string) (table : dict) (rows : list dict)
  : Prop :=
  forall r,
    In r rows ->
    exists key fields,
      Dict.get key table = Some (JDict fields) /\
      same_except table_key (Dict.merge [("name", JStr key)] fields) r /\
      (NoDup (Dict.keys fields) ->
       forall x y, x <> table_key ->
                   Dict.get x fields = Some y -> Dict.get x r = Some y).

(** [ret and isinstance(ret, dict)] for the value under a key. *)
Definition nonempty_mapping (v : option json) : bool :=
  match v with
  | Some (JDict (_ :: _)) => true
  | _ => false
  end.

(** The ["doc"] field is absent or a mapping. *)
Definition doc_absent_or_mapping (data : dict) : bool :=
  match Dict.get "doc" data with
  | Some v => is_dict v
  | None => true
  end.

(** *** Trees of options nested to three levels

    An entry of a table is given by its key and the fields of its value; an
    entry of the first two levels also has a nested table under the table
    key, between the fields [node_before] and the fields [node_after]. *)

Record leaf_entry : Type := {
  leaf_key : string;
  leaf_fields : dict
}.

Record node_entry (T : Type) : Type := {
  node_key : string;
  node_before : dict;
  node_sub : list T;
  node_after : dict
}.
Arguments node_key {T} n.
Arguments node_before {T} n.
Arguments node_sub {T} n.
Arguments node_after {T} n.

(** The table of a list of entries, as the payload has it. *)
Definition table_of {E} (key : E -> string) (value : E -> dict) (l : list E)
  : dict :=
  map (fun e => (key e, JDict (value e))) l.

(** The record expected for an entry of the last level. *)
Definition leaf_row (e : leaf_entry) : dict :=
  ("name", JStr (leaf_key e)) :: leaf_fields e.

(** The value of an entry with a nested table, and the record expected for
    it: the nested table has become the list of its records. *)
Definition node_value {T} (table_key : string)
  (sub_key : T -> string) (sub_value : T -> dict) (e : node_entry T) : dict :=
  node_before e
    ++ (table_key, JDict (table_of sub_key sub_value (node_sub e)))
    :: node_after e.

Definition node_row {T} (table_key : string) (sub_row : T -> dict)
  (e : node_entry T) : dict :=
  ("name", JStr (node_key e))
    :: node_before e
    ++ (table_key, JList (map JDict (map sub_row (node_sub e))))
    :: node_after e.

Definition tree3 : Type := list (node_entry (node_entry leaf_entry)).

Definition table3 (table_key : string) (tree : tree3) : dict :=
  table_of node_key
    (node_value table_key node_key (node_value table_key leaf_key leaf_fields))
    tree.

Definition rows3 (table_key : string) (tree : tree3) : list json :=
  map JDict (map (node_row table_key (node_row table_key leaf_row)) tree).

(** The keys of a table are unique, as are those of a record, ["name"] and
    the table key included; a value of the last level has no nested table. *)
Definition leaf_ok (table_key : string) (e : leaf_entry) : bool :=
  nodupb ("name" :: Dict.keys (leaf_fields e))
  && negb (is_mapping_at (leaf_fields e) table_key).

Definition node_ok {T} (table_key : string) (sub_key : T -> string)
  (sub_ok : T -> bool) (e : node_entry T) : bool :=
  nodupb ("name" :: Dict.keys (node_before e)
            ++ table_key :: Dict.keys (node_after e))
  && nodupb (map sub_key (node_sub e))
  && forallb sub_ok (node_sub e).

Definition tree3_ok (table_key : string) (tree : tree3) : bool :=
  nodupb (map node_key tree)
  && forallb (node_ok table_key node_key
                (node_ok table_key leaf_key (leaf_ok table_key))) tree.

(** The payload of the example: two options, the second with a suboption. *)
Definition example_payload : json :=
  JDict [("doc", JDict [("options", JDict
    [("opt1", JDict [("description", JStr "x")]);
     ("opt2", JDict [("description", JStr "y");
                     ("suboptions", JDict
                        [("sub1", JDict [("description", JStr "z")])])])])])].

Definition example_normalized : json :=
  JDict [("doc", JDict [("options", JList
    [JDict [("name", JStr "opt1"); ("description", JStr "x")];
     JDict [("name", JStr "opt2"); ("description", JStr "y");
            ("suboptions", JList
               [JDict [("name", JStr "sub1"); ("description", JStr "z")]])]])])].

(** *** A host and a loader to run [load] on

    A collection with no filter plugin and two modules. *)

Definition example_loader : DocStringLoader :=
  {| path := "/tmp/ansible_collections/ns/col";
     fq_collection_name := "ns.col";
     cfg_ansible_local_tmp := "/tmp/ansible";
     plugin_types := Some ["filter"; "module"];
     module_path := None |}.

Definition example_which (cmd : string) : option string :=
  Some "/usr/bin/ansible-doc".

Definition example_communicate (cmd : list string) (cwd : string)
  : Z * string * string :=
  if existsb (String.eqb "--list") cmd then
    if existsb (String.eqb "module") cmd then (0%Z, "modules", "")
    else (0%Z, "{}", "")
  else (0%Z, "docs", "").

Definition example_json_loads (s : string) : option json :=
  if String.eqb s "{}" then Some (JDict [])
  else if String.eqb s "modules" then
    Some (JDict [("ns.col.ping", JStr "Ping"); ("ns.col.copy", JStr "Copy")])
  else if String.eqb s "docs" then
    Some (JDict [("ns.col.copy", example_payload);
                 ("ns.col.ping", JDict [("doc", JDict []); ("return", JNull)])])
  else None.

(** *** Predicates on payloads and events *)

(** [doc.options] is a mapping: the first step has a table to convert. *)
Definition has_options_table (data : dict) : bool :=
  match Dict.get "doc" data with
  | Some (JDict doc) => is_mapping_at doc "options"
  | _ => false
  end.

(** The event is the warning of [dict_to_named_list], about a dict that has
    a value that is not a mapping. *)
Definition warns_of_bad_table (e : event) : bool :=
  match e with
  | LogWarningNotDictOfDicts d => negb (all_mappings d)
  | _ => false
  end.

(** The record of [key] with value [fields], field by field: ["name"] first,
    holding the value's own ["name"] if it has one and the key otherwise,
    then the other fields of the value in their order. *)
Definition record_in_order (key : string) (fields : dict) : dict :=
  ("name", match Dict.get "name" fields with Some y => y | None => JStr key end)
    :: filter (fun kv => negb (String.eqb (fst kv) "name")) fields.

(** *** Strings without a slash *)

Fixpoint no_slash (s : string) : bool :=
  match s with
  | EmptyString => true
  | String c s' => negb (Ascii.eqb c "/"%char) && no_slash s'
  end.

Fixpoint count_slash (s : string) : nat :=
  match s with
  | EmptyString => 0
  | String c s' => (if Ascii.eqb c "/"%char then 1 else 0) + count_slash s'
  end.

(** The walk and the relative paths of the example in the docstring of
    [_get_plugins]. *)
Definition example_walk (plugin_dir : string) : list (string * list string) :=
  [ ("plugins/modules", ["__init__.py"; "service_facts.py"; "README.md"]);
    ("plugins/modules/storage", []);
    ("plugins/modules/storage/subdir2", ["gc_storage.py"]) ].

Definition example_relpath (root start : string) : string :=
  if String.eqb root "plugins/modules" then "."
  else if String.eqb root "plugins/modules/storage" then "storage"
  else "storage/subdir2".

Definition example_gcp_loader : DocStringLoader :=
  {| path := "/tmp/ansible_collections/google/gcp";
     fq_collection_name := "google.gcp";
     cfg_ansible_local_tmp := "/tmp/ansible";
     plugin_types := None;
     module_path := None |}.

(** The payload is a mapping whose ["doc"] is absent or a mapping. *)
Definition payload_ok (v : json) : bool :=
  match v with
  | JDict fields => doc_absent_or_mapping fields
  | _ => false
  end.

(** The event, if it is the start of a process, starts [ansible-doc]
    through [/usr/bin/env] with the settings of the loader, asks for JSON
    and runs in the collections path. *)
Definition runs_ansible_doc (self : DocStringLoader) (e : event) : Prop :=
  match e with
  | Popen cmd cwd =>
      cwd = _collections_path self /\
      exists opts, cmd = _base_ansible_doc_cmd self ++ opts /\ In "--json" opts
  | _ => True
  end.

(** A host on which the listing of filters and the request for the docs
    of the modules fail, and a loader with [module_path] set with its host. *)
Definition failing_communicate (cmd : list string) (cwd : string)
  : Z * string * string :=
  if existsb (String.eqb "--list") cmd then
    if existsb (String.eqb "module") cmd then (0%Z, "modules", "")
    else (2%Z, "", "no such type")
  else (1%Z, "", "boom").

Definition example_module_path_loader : DocStringLoader :=
  {| path := "/tmp/ansible_collections/ns/col";
     fq_collection_name := "ns.col";
     cfg_ansible_local_tmp := "/tmp/ansible";
     plugin_types := Some ["lookup"; "module"];
     module_path := Some "/tmp/ansible_collections/ns/col/plugins/lookup" |}.

Definition module_path_communicate (cmd : list string) (cwd : string)
  : Z * string * string :=
  if existsb (String.eqb "ns.col") cmd then (0%Z, "modules", "")
  else (0%Z, "docs", "").

(** [obj'] is [obj] with the tables under [table_key] converted, at every
    depth, and nothing else changed. Without a table under [table_key] it is
    [obj] itself. With one, it has the keys of [obj] in their order, the
    value of [obj] under every other key, and under [table_key] a list of
    records: none if some value of the table is not a mapping, and otherwise
    one for each key of the table, in order, which is the record
    [{"name": key, **value}] of that entry, converted in the same way. *)
Inductive converted_record (table_key : string) : dict -> dict -> Prop :=
| converted_no_table obj :
    (forall table, Dict.get table_key obj <> Some (JDict table)) ->
    converted_record table_key obj obj
| converted_table_rows obj obj' table rows :
    Dict.get table_key obj = Some (JDict table) ->
    Dict.keys obj' = Dict.keys obj ->
    (forall k, k <> table_key -> Dict.get k obj' = Dict.get k obj) ->
    Dict.get table_key obj' = Some (JList (map JDict rows)) ->
    (all_mappings table = false -> rows = []) ->
    (all_mappings table = true ->
     Forall2
       (fun key r =>
          exists fields,
            Dict.get key table = Some (JDict fields) /\
            converted_record table_key
              (Dict.merge [("name", JStr key)] fields) r)
       (Dict.keys table) rows) ->
    converted_record table_key obj obj'.

(** The rows a table is replaced with: none if some value of the table is
    not a mapping, and otherwise, for each key in order, the converted
    record of its entry. *)
Definition converted_table (table_key : string) (table : dict) (rows : list dict)
  : Prop :=
  (all_mappings table = false -> rows = []) /\
  (all_mappings table = true ->
   Forall2
     (fun key r =>
        exists fields,
          Dict.get key table = Some (JDict fields) /\
          converted_record table_key
            (Dict.merge [("name", JStr key)] fields) r)
     (Dict.keys table) rows).

(** * Properties *)

(** ** Dicts *)

Module DictFacts.
Import Dict.

Lemma get_set_same k v d : get k (set k v d) = Some v.
Proof.
  induction d as [|[k' v'] d IH]; simpl.
  - now rewrite String.eqb_refl.
  - destruct (String.eqb k k') eqn:E; simpl; rewrite ?E, ?String.eqb_refl; auto.
Qed.

Lemma get_set_other k k' v d : k <> k' -> get k (set k' v d) = get k d.
Proof.
  intros Hne. induction d as [|[k0 v0] d IH]; simpl.
  - destruct (String.eqb k k') eqn:E; auto.
    apply String.eqb_eq in E. contradiction.
  - destruct (String.eqb k' k0) eqn:E; simpl.
    + apply String.eqb_eq in E. subst k0.
      destruct (String.eqb k k') eqn:E'; auto.
      apply String.eqb_eq in E'. contradiction.
    + now rewrite IH.
Qed.

Lemma keys_set_present k v d :
  get k d <> None -> keys (set k v d) = keys d.
Proof.
  unfold keys. induction d as [|[k' v'] d IH]; simpl; intros H.
  - contradiction.
  - destruct (String.eqb k k') eqn:E; simpl.
    + apply String.eqb_eq in E. now subst.
    + now rewrite IH.
Qed.

Lemma get_in_keys k d : In k (keys d) -> get k d <> None.
Proof.
  unfold keys. induction d as [|[k' v'] d IH]; simpl; intros H.
  - contradiction.
  - destruct (String.eqb k k') eqn:E; [discriminate|].
    destruct H as [H|H]; auto.
    subst. now rewrite String.eqb_refl in E.
Qed.

Lemma get_some_in k v d : get k d = Some v -> In (k, v) d.
Proof.
  induction d as [|[k' v'] d IH]; simpl; intros H; [discriminate|].
  destruct (String.eqb k k') eqn:E.
  - apply String.eqb_eq in E. inversion H. subst. now left.
  - right. auto.
Qed.

Lemma get_none_not_in k d : get k d = None -> ~ In k (keys d).
Proof.
  intros H Hin. now apply get_in_keys in Hin.
Qed.

Lemma existsb_eqb_in x l : existsb (String.eqb x) l = true <-> In x l.
Proof.
  rewrite existsb_exists. split.
  - intros [y [Hy E]]. apply String.eqb_eq in E. now subst.
  - intros H. exists x. split; auto. apply String.eqb_refl.
Qed.

Lemma nodupb_NoDup l : nodupb l = true <-> NoDup l.
Proof.
  induction l as [|x l IH]; simpl.
  - split; auto. constructor.
  - rewrite andb_true_iff, negb_true_iff, IH. split.
    + intros [Hx Hl]. constructor; auto.
      intros Hin. apply existsb_eqb_in in Hin. congruence.
    + intros H. inversion H; subst. split; auto.
      destruct (existsb (String.eqb x) l) eqn:E; auto.
      apply existsb_eqb_in in E. contradiction.
Qed.

(** With unique keys, looking a key up finds the entry it is paired with. *)
Lemma get_in_nodup k v d : NoDup (keys d) -> In (k, v) d -> get k d = Some v.
Proof.
  unfold keys. induction d as [|[k' v'] d IH]; simpl; intros Hnd Hin.
  - contradiction.
  - inversion Hnd; subst.
    destruct Hin as [Hin|Hin].
    + inversion Hin; subst. now rewrite String.eqb_refl.
    + destruct (String.eqb k k') eqn:E; auto.
      apply String.eqb_eq in E. subst k'.
      exfalso. apply H1. change k with (fst (k, v)). now apply in_map.
Qed.

(** Writing the entries of [ext] one by one: a key new to [base] and to the
    entries already written goes last. *)
Lemma merge_app_fresh base ext :
  NoDup (keys ext) ->
  (forall k, In k (keys ext) -> ~ In k (keys base)) ->
  merge base ext = base ++ ext.
Proof.
  unfold merge. revert base.
  induction ext as [|[k v] ext IH]; intros base Hnd Hfresh; simpl.
  - now rewrite app_nil_r.
  - inversion Hnd; subst.
    assert (Hset : set k v base = base ++ [(k, v)]).
    { assert (Hk : ~ In k (keys base)) by (apply Hfresh; now left).
      clear - Hk. induction base as [|[k' v'] base IHb]; simpl; auto.
      destruct (String.eqb k k') eqn:E.
      - apply String.eqb_eq in E. subst. exfalso. apply Hk. now left.
      - f_equal. apply IHb. intros Hin. apply Hk. now right. }
    rewrite Hset, IH; auto.
    + now rewrite <- app_assoc.
    + intros k' Hin Hin'. unfold keys in Hin'.
      rewrite map_app in Hin'. apply in_app_or in Hin'.
      destruct Hin' as [Hin'|Hin'].
      * apply (Hfresh k'); auto. now right.
      * simpl in Hin'. destruct Hin' as [->|[]]. contradiction.
Qed.

(** The first key of a dict stays first under writes. *)
Lemma set_head k v k0 v0 d :
  exists v1 d1, set k v ((k0, v0) :: d) = (k0, v1) :: d1.
Proof.
  simpl. destruct (String.eqb k k0) eqn:E; eauto.
  apply String.eqb_eq in E. subst. eauto.
Qed.

Lemma merge_head k0 v0 d ext :
  exists v1 d1, merge ((k0, v0) :: d) ext = (k0, v1) :: d1.
Proof.
  unfold merge. revert v0 d.
  induction ext as [|[k v] ext IH]; intros v0 d; simpl.
  - eauto.
  - destruct (String.eqb k k0) eqn:E.
    + apply String.eqb_eq in E. subst k. apply IH.
    + apply IH.
Qed.

(** Reading a merged dict: the entry of [ext] when it has the key (keys of
    [ext] being unique), the entry of [base] otherwise. *)
Lemma get_merge x base ext :
  NoDup (keys ext) ->
  get x (merge base ext) =
    match get x ext with Some y => Some y | None => get x base end.
Proof.
  unfold merge. revert base.
  induction ext as [|[k v] ext IH]; intros base Hnd; simpl; auto.
  inversion Hnd; subst.
  rewrite IH by assumption.
  destruct (String.eqb x k) eqn:E.
  - apply String.eqb_eq in E. subst k.
    destruct (get x ext) eqn:G.
    + exfalso. apply H1. apply get_some_in in G.
      change x with (fst (x, j)). now apply in_map.
    + apply get_set_same.
  - destruct (get x ext); auto.
    apply get_set_other. intros ->. now rewrite String.eqb_refl in E.
Qed.

End DictFacts.

(** ** The monad *)

Lemma bind_ret_l {A B} (a : A) (f : A -> M B) : bind (ret a) f = f a.
Proof. unfold bind, ret. now destruct (f a). Qed.

Lemma bind_Ok {A B} (m : M A) (f : A -> M B) a w1 r w2 :
  m = (Ok a, w1) -> f a = (r, w2) -> bind m f = (r, w1 ++ w2).
Proof. intros -> H. unfold bind. now rewrite H. Qed.

Lemma bind_Ok_inv {A B} (m : M A) (f : A -> M B) b w :
  bind m f = (Ok b, w) ->
  exists a w1 w2, m = (Ok a, w1) /\ f a = (Ok b, w2) /\ w = w1 ++ w2.
Proof.
  unfold bind. destruct m as [[a|e|] w1]; try discriminate.
  destruct (f a) as [r w2] eqn:E. intros H. inversion H; subst.
  now exists a, w1, w2.
Qed.

Lemma mapM_pure {A B} (f : A -> M B) (g : A -> B) l :
  (forall x, In x l -> f x = (Ok (g x), [])) ->
  mapM f l = (Ok (map g l), []).
Proof.
  induction l as [|x l IH]; intros H; simpl; auto.
  rewrite (bind_Ok _ _ (g x) [] (Ok (g x :: map g l)) []); auto.
  - apply H. now left.
  - rewrite (bind_Ok _ _ (map g l) [] (Ok (g x :: map g l)) []); auto.
    apply IH. intros y Hy. apply H. now right.
Qed.

Lemma mapM_total {A B} (f : A -> M B) l :
  (forall x, In x l -> exists y w, f x = (Ok y, w)) ->
  exists ys w, mapM f l = (Ok ys, w).
Proof.
  induction l as [|x l IH]; intros H; simpl.
  - now exists [], [].
  - destruct (H x) as [y [w Hy]]; [now left|].
    destruct IH as [ys [w' Hys]]; [intros z Hz; apply H; now right|].
    exists (y :: ys), (w ++ (w' ++ [])).
    apply bind_Ok with (a := y); auto.
    apply bind_Ok with (a := ys); auto.
Qed.

Lemma mapM_Ok_inv {A B} (f : A -> M B) l ys w :
  mapM f l = (Ok ys, w) ->
  Forall2 (fun x y => exists w', f x = (Ok y, w')) l ys.
Proof.
  revert ys w. induction l as [|x l IH]; intros ys w H; simpl in H.
  - inversion H. constructor.
  - apply bind_Ok_inv in H. destruct H as [y [w1 [w2 [Hy [H _]]]]].
    apply bind_Ok_inv in H. destruct H as [ys' [w3 [w4 [Hys [H _]]]]].
    inversion H; subst. constructor; eauto.
Qed.

(** ** [dict_to_named_list] *)


Lemma mapM_named_record d ks :
  (forall k, In k ks -> Dict.get k d <> None) ->
  mapM (named_record d) ks =
    if forallb (is_mapping_at d) ks
    then (Ok (map (record_of d) ks), [])
    else (Raise TypeError, []).
Proof.
  induction ks as [|k ks IH]; intros Hin; simpl; auto.
  assert (Hk : Dict.get k d <> None) by (apply Hin; now left).
  rewrite IH by (intros k' Hk'; apply Hin; now right).
  unfold named_record, is_mapping_at, record_of, deepcopy.
  destruct (Dict.get k d) as [v|]; [|contradiction].
  destruct v; simpl; auto.
  destruct (forallb _ ks); reflexivity.
Qed.

Lemma filter_key_isinstance_dict ks : filter key_isinstance_dict ks = [].
Proof. induction ks; simpl; auto. Qed.

(** What [dict_to_named_list] returns and logs, in both of its branches. *)
Lemma dict_to_named_list_eq d :
  dict_to_named_list d =
    if all_mappings d
    then (Ok (map (record_of d) (Dict.keys d)), [])
    else (Ok [], [LogWarningNotDictOfDicts d]).
Proof.
  unfold dict_to_named_list, all_mappings.
  rewrite mapM_named_record
    by (intros k Hk; now apply DictFacts.get_in_keys).
  rewrite filter_key_isinstance_dict.
  destruct (forallb _ _); reflexivity.
Qed.

Lemma all_mappings_false d k v :
  Dict.get k d = Some v -> is_dict v = false -> all_mappings d = false.
Proof.
  intros G Hv. unfold all_mappings.
  destruct (forallb _ _) eqn:E; auto.
  rewrite forallb_forall in E.
  assert (Hin : In k (Dict.keys d)).
  { apply DictFacts.get_some_in in G. change k with (fst (k, v)).
    now apply in_map. }
  apply E in Hin. unfold is_mapping_at in Hin. rewrite G in Hin. congruence.
Qed.

Lemma all_mappings_get d k :
  all_mappings d = true -> In k (Dict.keys d) ->
  exists fields, Dict.get k d = Some (JDict fields).
Proof.
  unfold all_mappings. rewrite forallb_forall. intros H Hin.
  apply H in Hin. unfold is_mapping_at in Hin.
  destruct (Dict.get k d) as [[]|]; try discriminate. eauto.
Qed.

Lemma wf_dict_keys d : wf_dict d = true -> NoDup (Dict.keys d).
Proof.
  unfold wf_dict. simpl. rewrite andb_true_iff. intros [H _].
  now apply DictFacts.nodupb_NoDup.
Qed.

Lemma wf_dict_get d k v : wf_dict d = true -> Dict.get k d = Some v -> wf v = true.
Proof.
  unfold wf_dict. simpl. rewrite andb_true_iff. intros [_ H] G.
  rewrite forallb_forall in H.
  apply DictFacts.get_some_in in G. now apply H in G.
Qed.

Lemma record_of_get d k fields :
  Dict.get k d = Some (JDict fields) ->
  record_of d k = Dict.merge [("name", JStr k)] fields.
Proof. unfold record_of. now intros ->. Qed.

(** The fields of a record: those of the value, and the promoted key under
    ["name"] unless the value has a ["name"] of its own. *)
Lemma get_record_of d k fields x :
  wf_dict d = true ->
  Dict.get k d = Some (JDict fields) ->
  Dict.get x (record_of d k) =
    match Dict.get x fields with
    | Some y => Some y
    | None => if String.eqb x "name" then Some (JStr k) else None
    end.
Proof.
  intros Hwf G. rewrite (record_of_get _ _ _ G).
  rewrite DictFacts.get_merge.
  - destruct (Dict.get x fields); auto.
  - apply wf_dict_keys. exact (wf_dict_get _ _ _ Hwf G).
Qed.

Lemma record_of_head d k fields :
  Dict.get k d = Some (JDict fields) ->
  exists v rest, record_of d k = ("name", v) :: rest.
Proof.
  intros G. rewrite (record_of_get _ _ _ G). apply DictFacts.merge_head.
Qed.


(** C10: when some value of a dict with string keys is not a mapping, the
    fallback branch of [dict_to_named_list] keeps no key at all (its filter
    tests the key, a string, for being a dict), so the call logs the warning
    and returns the empty list, well-formed entries included. *)
Theorem fallback_returns_empty_list (d : dict) (k : string) (v : json) :
  Dict.get k d = Some v ->
  is_dict v = false ->
  filter key_isinstance_dict (Dict.keys d) = [] /\
  dict_to_named_list d = (Ok [], [LogWarningNotDictOfDicts d]).
Proof.
  intros G Hv. split.
  - apply filter_key_isinstance_dict.
  - rewrite dict_to_named_list_eq.
    now rewrite (all_mappings_false _ _ _ G Hv).
Qed.

Lemma fallback_returns_empty_list_witness :
  let d := [("state", JDict [("type", JStr "str")]); ("path", JInt 7)] in
  Dict.get "path" d = Some (JInt 7) /\
  is_dict (JInt 7) = false /\
  filter key_isinstance_dict (Dict.keys d) = [] /\
  dict_to_named_list d = (Ok [], [LogWarningNotDictOfDicts d]).
Proof.
  cbv zeta. split; [reflexivity|]. split; [reflexivity|].
  apply (fallback_returns_empty_list _ "path" (JInt 7)); reflexivity.
Defined.

(** C2 (the code differs): on [{"a": {"x": 1}, "b": "bad"}] the call does not
    raise and logs the warning, but it returns the empty list; the record of
    the well-formed entry ["a"] is dropped with the malformed one. *)
Theorem fallback_drops_well_formed_entry :
  let d := [("a", JDict [("x", JInt 1)]); ("b", JStr "bad")] in
  dict_to_named_list d = (Ok [], [LogWarningNotDictOfDicts d]) /\
  record_of d "a" = [("name", JStr "a"); ("x", JInt 1)] /\
  fst (dict_to_named_list d) <> Ok [record_of d "a"].
Proof.
  cbv zeta. split; [reflexivity|]. split; [reflexivity|].
  simpl. discriminate.
Qed.

(** C3, as stated, fails: the value of ["opt"] has a ["name"] of its own, and
    the record is named by it, not by the key. *)
Lemma record_named_by_key_counterexample :
  let m := [("opt", JDict [("name", JStr "other")])] in
  wf_dict m = true /\
  all_mappings m = true /\
  dict_to_named_list m = (Ok [[("name", JStr "other")]], []) /\
  ~ one_record_per_key m [[("name", JStr "other")]].
Proof.
  cbv zeta. repeat (split; [reflexivity|]).
  intros [_ H].
  destruct (H 0 "opt" [("name", JStr "other")] eq_refl eq_refl)
    as [r [Hr [Hname _]]].
  simpl in Hr. inversion Hr; subst r. simpl in Hname. discriminate.
Qed.

(** C3 (amended): for a dict whose values are all mappings,
    [dict_to_named_list] logs nothing and returns one record per key, in the
    order of the keys; the record of a key has every field of the key's
    value, with the same value, and is named by the key when the value has
    no ["name"] field of its own. *)
Theorem one_record_per_key_in_order (m : dict) :
  wf_dict m = true ->
  all_mappings m = true ->
  exists rows,
    dict_to_named_list m = (Ok rows, []) /\
    List.length rows = List.length m /\
    forall i k,
      nth_error (Dict.keys m) i = Some k ->
      exists fields r,
        Dict.get k m = Some (JDict fields) /\
        nth_error rows i = Some r /\
        (forall x y, Dict.get x fields = Some y -> Dict.get x r = Some y) /\
        (Dict.get "name" fields = None -> Dict.get "name" r = Some (JStr k)).
Proof.
  intros Hwf Hall.
  exists (map (record_of m) (Dict.keys m)).
  split; [|split].
  - rewrite dict_to_named_list_eq. now rewrite Hall.
  - unfold Dict.keys. now rewrite !length_map.
  - intros i k Hk.
    destruct (all_mappings_get m k Hall) as [fields G].
    { eapply nth_error_In; eauto. }
    exists fields, (record_of m k). split; [exact G|]. split; [|split].
    + rewrite nth_error_map. now rewrite Hk.
    + intros x y Hx. rewrite (get_record_of _ _ _ _ Hwf G). now rewrite Hx.
    + intros Hn. rewrite (get_record_of _ _ _ _ Hwf G). now rewrite Hn.
Qed.

Lemma one_record_per_key_in_order_witness :
  let m := [("state", JDict [("type", JStr "str"); ("default", JNull)]);
            ("path", JDict [("required", JBool true)])] in
  wf_dict m = true /\
  all_mappings m = true /\
  exists rows,
    dict_to_named_list m = (Ok rows, []) /\
    List.length rows = List.length m /\
    forall i k,
      nth_error (Dict.keys m) i = Some k ->
      exists fields r,
        Dict.get k m = Some (JDict fields) /\
        nth_error rows i = Some r /\
        (forall x y, Dict.get x fields = Some y -> Dict.get x r = Some y) /\
        (Dict.get "name" fields = None -> Dict.get "name" r = Some (JStr k)).
Proof.
  cbv zeta. split; [reflexivity|]. split; [reflexivity|].
  apply one_record_per_key_in_order; reflexivity.
Defined.

(** C8: every record returned by [dict_to_named_list] starts with its
    ["name"] field, and when the value of the record's key has a ["name"]
    field of its own the record carries that one, not the key. When every
    value is a mapping there is one such record for each entry, at the
    position of its key. *)
Theorem name_first_and_value_name_wins (m : dict) :
  wf_dict m = true ->
  exists rows w,
    dict_to_named_list m = (Ok rows, w) /\
    (forall i r,
        nth_error rows i = Some r ->
        (exists v rest, r = ("name", v) :: rest) /\
        exists k fields,
          nth_error (Dict.keys m) i = Some k /\
          Dict.get k m = Some (JDict fields) /\
          forall y, Dict.get "name" fields = Some y -> Dict.get "name" r = Some y) /\
    (all_mappings m = false -> rows = []) /\
    (all_mappings m = true ->
     List.length rows = List.length m /\
     forall i k,
       nth_error (Dict.keys m) i = Some k ->
       exists fields r v rest,
         Dict.get k m = Some (JDict fields) /\
         nth_error rows i = Some r /\
         r = ("name", v) :: rest /\
         (forall y, Dict.get "name" fields = Some y -> v = y) /\
         (Dict.get "name" fields = None -> v = JStr k)).
Proof.
  intros Hwf. rewrite dict_to_named_list_eq.
  destruct (all_mappings m) eqn:Hall.
  - eexists _, _. split; [reflexivity|]. split; [|split; [discriminate|]].
    + intros i r Hr. rewrite nth_error_map in Hr.
      destruct (nth_error (Dict.keys m) i) as [k|] eqn:Hk; [|discriminate].
      simpl in Hr. inversion Hr; subst r.
      destruct (all_mappings_get m k Hall) as [fields G].
      { eapply nth_error_In; eauto. }
      split.
      * eapply record_of_head; eauto.
      * exists k, fields. repeat split; auto.
        intros y Hy. rewrite (get_record_of _ _ _ _ Hwf G). now rewrite Hy.
    + intros _. split.
      { unfold Dict.keys. now rewrite !length_map. }
      intros i k Hk.
      destruct (all_mappings_get m k Hall) as [fields G].
      { eapply nth_error_In; eauto. }
      destruct (record_of_head m k fields G) as [v [rest Hrec]].
      exists fields, (record_of m k), v, rest.
      split; [exact G|]. split; [now rewrite nth_error_map, Hk|].
      split; [exact Hrec|].
      pose proof (get_record_of m k fields "name" Hwf G) as Hname.
      rewrite Hrec in Hname. cbn [Dict.get] in Hname.
      rewrite String.eqb_refl in Hname.
      split.
      * intros y Hy. rewrite Hy in Hname. congruence.
      * intros Hn. rewrite Hn in Hname. congruence.
  - eexists _, _. split; [reflexivity|]. split; [|split; [reflexivity|discriminate]].
    intros i r Hr. destruct i; discriminate.
Qed.

Lemma name_first_and_value_name_wins_witness :
  let m := [("opt", JDict [("type", JStr "str"); ("name", JStr "other")]);
            ("path", JDict [("type", JStr "path")])] in
  wf_dict m = true /\
  all_mappings m = true /\
  exists rows w,
    dict_to_named_list m = (Ok rows, w) /\
    (forall i r,
        nth_error rows i = Some r ->
        (exists v rest, r = ("name", v) :: rest) /\
        exists k fields,
          nth_error (Dict.keys m) i = Some k /\
          Dict.get k m = Some (JDict fields) /\
          forall y, Dict.get "name" fields = Some y -> Dict.get "name" r = Some y) /\
    (all_mappings m = false -> rows = []) /\
    (all_mappings m = true ->
     List.length rows = List.length m /\
     forall i k,
       nth_error (Dict.keys m) i = Some k ->
       exists fields r v rest,
         Dict.get k m = Some (JDict fields) /\
         nth_error rows i = Some r /\
         r = ("name", v) :: rest /\
         (forall y, Dict.get "name" fields = Some y -> v = y) /\
         (Dict.get "name" fields = None -> v = JStr k)).
Proof.
  cbv zeta. split; [reflexivity|]. split; [reflexivity|].
  apply name_first_and_value_name_wins. reflexivity.
Defined.

(** ** [handle_nested_tables] *)

(** C5: a record whose target field already holds a list is returned as it
    is, with nothing logged: the conversion fires for a mapping only. *)
Theorem converted_field_is_left_alone
  (fuel : nat) (obj : dict) (table_key : string) (l : list json) :
  Dict.get table_key obj = Some (JList l) ->
  handle_nested_tables (S fuel) obj table_key = (Ok obj, []).
Proof.
  intros G. simpl. now rewrite G.
Qed.

Lemma converted_field_is_left_alone_witness :
  let obj := [("name", JStr "opt2");
              ("suboptions", JList [JDict [("name", JStr "sub1")]])] in
  Dict.get "suboptions" obj = Some (JList [JDict [("name", JStr "sub1")]]) /\
  handle_nested_tables 1 obj "suboptions" = (Ok obj, []).
Proof.
  cbv zeta. split; [reflexivity|].
  now apply (converted_field_is_left_alone 0 _ "suboptions"
               [JDict [("name", JStr "sub1")]]).
Defined.

(** The result of [handle_nested_tables]: the object itself, or the object
    with a list written under [table_key], which it already had. *)
Lemma handle_nested_tables_shape fuel obj table_key obj' w :
  handle_nested_tables fuel obj table_key = (Ok obj', w) ->
  obj' = obj \/
  exists table rows,
    Dict.get table_key obj = Some (JDict table) /\
    obj' = Dict.set table_key (JList (map JDict rows)) obj.
Proof.
  destruct fuel as [|fuel]; simpl; [discriminate|].
  destruct (Dict.get table_key obj) as [v|] eqn:G.
  2:{ intros H. inversion H. now left. }
  destruct v; try (intros H; inversion H; now left).
  intros H. right.
  apply bind_Ok_inv in H. destruct H as [rows [w1 [w2 [_ [H _]]]]].
  apply bind_Ok_inv in H. destruct H as [rows' [w3 [w4 [_ [H _]]]]].
  inversion H. eauto.
Qed.

(** [handle_nested_tables] writes [table_key] only. *)
Lemma handle_nested_tables_frame fuel obj table_key obj' w :
  handle_nested_tables fuel obj table_key = (Ok obj', w) ->
  Dict.keys obj' = Dict.keys obj /\
  forall k, k <> table_key -> Dict.get k obj' = Dict.get k obj.
Proof.
  intros H. apply handle_nested_tables_shape in H.
  destruct H as [->|[table [rows [G ->]]]]; [now split|].
  split.
  - apply DictFacts.keys_set_present. now rewrite G.
  - intros k Hk. now apply DictFacts.get_set_other.
Qed.

(** A second application to the result of a first one changes nothing. *)
Lemma handle_nested_tables_idempotent fuel fuel' obj table_key obj' w :
  handle_nested_tables fuel obj table_key = (Ok obj', w) ->
  handle_nested_tables (S fuel') obj' table_key = (Ok obj', []).
Proof.
  intros H. pose proof (handle_nested_tables_shape _ _ _ _ _ H) as Hs.
  destruct Hs as [->|[table [rows [G ->]]]].
  - destruct fuel as [|fuel]; simpl in H; [discriminate|]. simpl.
    destruct (Dict.get table_key obj) as [v|] eqn:G; auto.
    destruct v; auto.
    apply bind_Ok_inv in H. destruct H as [rows [w1 [w2 [_ [H _]]]]].
    apply bind_Ok_inv in H. destruct H as [rows' [w3 [w4 [_ [H _]]]]].
    inversion H as [Heq].
    assert (E : Dict.get table_key
                  (Dict.set table_key (JList (map JDict rows')) obj)
                = Dict.get table_key obj) by now rewrite Heq.
    rewrite DictFacts.get_set_same, G in E. discriminate.
  - simpl. now rewrite DictFacts.get_set_same.
Qed.

Lemma mapM_mono {A B} (f g : A -> M B) l ys w :
  (forall x y w', In x l -> f x = (Ok y, w') -> g x = (Ok y, w')) ->
  mapM f l = (Ok ys, w) -> mapM g l = (Ok ys, w).
Proof.
  revert ys w. induction l as [|x l IH]; intros ys w Hfg H; simpl in *; auto.
  apply bind_Ok_inv in H. destruct H as [y [w1 [w2 [Hy [H ->]]]]].
  apply bind_Ok_inv in H. destruct H as [ys' [w3 [w4 [Hys [H ->]]]]].
  inversion H; subst.
  apply bind_Ok with (a := y); [apply Hfg; auto|].
  apply bind_Ok with (a := ys'); auto.
Qed.

(** More fuel does not change a result. *)
Lemma handle_nested_tables_fuel_mono fuel :
  forall fuel' obj table_key obj' w,
    fuel <= fuel' ->
    handle_nested_tables fuel obj table_key = (Ok obj', w) ->
    handle_nested_tables fuel' obj table_key = (Ok obj', w).
Proof.
  induction fuel as [|fuel IH]; intros fuel' obj tk obj' w Hle H;
    simpl in H; [discriminate|].
  destruct fuel' as [|fuel']; [lia|]. simpl.
  destruct (Dict.get tk obj) as [v|]; auto.
  destruct v; auto.
  apply bind_Ok_inv in H. destruct H as [rows [w1 [w2 [Hrows [H ->]]]]].
  apply bind_Ok_inv in H. destruct H as [rows' [w3 [w4 [Hrows' [H ->]]]]].
  apply bind_Ok with (a := rows); auto.
  apply bind_Ok with (a := rows'); auto.
  eapply mapM_mono; [|exact Hrows'].
  intros x y w' _ Hx. apply IH; auto. lia.
Qed.

(** *** Enough fuel *)

Lemma depth_JDict d : depth (JDict d) = S (entries_depth d).
Proof. reflexivity. Qed.

Lemma depth_get k d v : Dict.get k d = Some v -> depth v <= entries_depth d.
Proof.
  induction d as [|[k' v'] d IH]; simpl; intros H; [discriminate|].
  destruct (String.eqb k k').
  - inversion H; subst. lia.
  - apply IH in H. lia.
Qed.

Lemma entries_depth_set k v d :
  entries_depth (Dict.set k v d) <= Nat.max (depth v) (entries_depth d).
Proof.
  induction d as [|[k' v'] d IH]; simpl; [lia|].
  destruct (String.eqb k k'); simpl; lia.
Qed.

Lemma entries_depth_merge base ext :
  entries_depth (Dict.merge base ext) <=
    Nat.max (entries_depth base) (entries_depth ext).
Proof.
  unfold Dict.merge. revert base.
  induction ext as [|[k v] ext IH]; intros base; simpl; [lia|].
  specialize (IH (Dict.set k v base)).
  pose proof (entries_depth_set k v base). lia.
Qed.

Lemma depth_record_of t k fields :
  Dict.get k t = Some (JDict fields) ->
  depth (JDict (record_of t k)) <= entries_depth t.
Proof.
  intros G. rewrite (record_of_get _ _ _ G).
  pose proof (entries_depth_merge [("name", JStr k)] fields) as Hm.
  apply depth_get in G. rewrite depth_JDict in *. simpl in Hm. lia.
Qed.

(** Every row of a converted table is less deep than the table. *)
Lemma dict_to_named_list_rows t :
  exists rows w,
    dict_to_named_list t = (Ok rows, w) /\
    forall r, In r rows -> depth (JDict r) <= entries_depth t.
Proof.
  rewrite dict_to_named_list_eq.
  destruct (all_mappings t) eqn:Hall.
  - eexists _, _. split; [reflexivity|].
    intros r Hr. apply in_map_iff in Hr. destruct Hr as [k [<- Hk]].
    destruct (all_mappings_get t k Hall Hk) as [fields G].
    eapply depth_record_of; eauto.
  - eexists _, _. split; [reflexivity|]. intros r [].
Qed.

(** The depth of the object is enough fuel: the call returns, and it does
    not raise. *)
Lemma handle_nested_tables_returns fuel :
  forall obj table_key,
    depth (JDict obj) <= fuel ->
    exists obj' w, handle_nested_tables fuel obj table_key = (Ok obj', w).
Proof.
  induction fuel as [|fuel IH]; intros obj tk Hd.
  - rewrite depth_JDict in Hd. lia.
  - simpl. destruct (Dict.get tk obj) as [v|] eqn:G; [|now eexists _, _].
    destruct v; try now eexists _, _.
    destruct (dict_to_named_list_rows d) as [rows [w [Hrows Hdepth]]].
    destruct (mapM_total (fun row => handle_nested_tables fuel row tk) rows)
      as [rows' [w' Hrows']].
    { intros r Hr. apply IH. apply Hdepth in Hr.
      apply depth_get in G. rewrite !depth_JDict in *. lia. }
    eexists _, _.
    eapply bind_Ok; [exact Hrows|].
    eapply bind_Ok; [exact Hrows'|reflexivity].
Qed.

(** ** [_transform_doc_strings] *)

Lemma Forall2_in_r {A B} (R : A -> B -> Prop) l l' y :
  Forall2 R l l' -> In y l' -> exists x, In x l /\ R x y.
Proof.
  induction 1 as [|x y' l l' HR HF IH]; intros Hin; [contradiction|].
  destruct Hin as [->|Hin].
  - exists x. split; auto. now left.
  - destruct (IH Hin) as [x' [Hx HR']]. exists x'. split; auto. now right.
Qed.

(** The rows a table is replaced with, after the recursion over them. *)
Lemma converted_rows fuel table_key table rows w1 rows' w2 :
  dict_to_named_list table = (Ok rows, w1) ->
  mapM (fun row => handle_nested_tables fuel row table_key) rows = (Ok rows', w2) ->
  records_of_table table_key table rows'.
Proof.
  intros Hrows Hrows' r' Hr'.
  apply mapM_Ok_inv in Hrows'.
  destruct (Forall2_in_r _ _ _ _ Hrows' Hr') as [r [Hr [w Hnt]]].
  rewrite dict_to_named_list_eq in Hrows.
  destruct (all_mappings table) eqn:Hall; inversion Hrows; subst rows.
  2:{ contradiction. }
  apply in_map_iff in Hr. destruct Hr as [k [<- Hk]].
  destruct (all_mappings_get table k Hall Hk) as [fields G].
  exists k, fields. split; auto.
  rewrite <- (record_of_get _ _ _ G).
  pose proof (handle_nested_tables_frame _ _ _ _ _ Hnt) as Hframe.
  split; [exact Hframe|].
  intros Hnd x y Hx Gx. destruct Hframe as [_ Hget].
  rewrite (Hget x Hx), (record_of_get _ _ _ G), DictFacts.get_merge by assumption.
  now rewrite Gx.
Qed.

(** The first step, by cases on the ["doc"] field. *)
Lemma transform_options_eq fuel data :
  transform_options fuel data =
    match Dict.get "doc" data with
    | Some (JDict doc) =>
        match Dict.get "options" doc with
        | Some (JDict table) =>
            rows <- dict_to_named_list table ;;
            rows' <- mapM (fun d => handle_nested_tables fuel d "suboptions") rows ;;
            ret (Dict.set "doc"
                   (JDict (Dict.set "options" (JList (map JDict rows')) doc))
                   data)
        | _ => ret data
        end
    | Some _ => raise AttributeError
    | None => ret data
    end.
Proof.
  unfold transform_options, Dict.mem. cbv [py_get]. rewrite bind_ret_l.
  destruct (Dict.get "doc" data) as [v|] eqn:G.
  - destruct v; try reflexivity.
    rewrite bind_ret_l.
    destruct (Dict.get "options" d) as [o|]; [|reflexivity].
    destruct o; reflexivity.
  - rewrite bind_ret_l. reflexivity.
Qed.

(** The second step, by cases on the ["return"] field. *)
Lemma transform_return_eq fuel data :
  transform_return fuel data =
    match Dict.get "return" data with
    | Some (JDict (e :: table)) =>
        rows <- dict_to_named_list (e :: table) ;;
        rows' <- mapM (fun d => handle_nested_tables fuel d "contains") rows ;;
        ret (Dict.set "return" (JList (map JDict rows')) data)
    | _ => ret data
    end.
Proof.
  unfold transform_return. cbv [py_get]. rewrite bind_ret_l.
  destruct (Dict.get "return" data) as [v|]; [|reflexivity].
  destruct v; try reflexivity.
  destruct d; reflexivity.
Qed.

Lemma transform_options_raises fuel data v :
  Dict.get "doc" data = Some v -> is_dict v = false ->
  transform_options fuel data = (Raise AttributeError, []).
Proof.
  intros G Hv. rewrite transform_options_eq, G.
  destruct v; try discriminate; reflexivity.
Qed.

Lemma transform_options_Ok fuel data data1 w :
  transform_options fuel data = (Ok data1, w) ->
  match Dict.get "doc" data with
  | Some (JDict doc) =>
      match Dict.get "options" doc with
      | Some (JDict table) =>
          exists rows,
            data1 = Dict.set "doc"
                      (JDict (Dict.set "options" (JList (map JDict rows)) doc))
                      data /\
            records_of_table "suboptions" table rows
      | _ => data1 = data
      end
  | Some _ => False
  | None => data1 = data
  end.
Proof.
  rewrite transform_options_eq.
  destruct (Dict.get "doc" data) as [v|] eqn:G.
  2:{ intros H. now inversion H. }
  destruct v; try discriminate.
  destruct (Dict.get "options" d) as [o|] eqn:Go.
  2:{ intros H. now inversion H. }
  destruct o; try (intros H; now inversion H).
  intros H.
  apply bind_Ok_inv in H. destruct H as [rows [w1 [w2 [Hrows [H _]]]]].
  apply bind_Ok_inv in H. destruct H as [rows' [w3 [w4 [Hrows' [H _]]]]].
  inversion H. exists rows'. split; auto.
  eapply converted_rows; eauto.
Qed.

Lemma transform_options_returns fuel data :
  doc_absent_or_mapping data = true ->
  depth (JDict data) <= fuel ->
  exists data1 w, transform_options fuel data = (Ok data1, w).
Proof.
  unfold doc_absent_or_mapping. rewrite transform_options_eq. intros Hdoc Hd.
  destruct (Dict.get "doc" data) as [v|] eqn:G.
  2:{ now eexists _, _. }
  destruct v; try discriminate.
  destruct (Dict.get "options" d) as [o|] eqn:Go; [|now eexists _, _].
  destruct o; try now eexists _, _.
  destruct (dict_to_named_list_rows d0) as [rows [w [Hrows Hdepth]]].
  destruct (mapM_total (fun r => handle_nested_tables fuel r "suboptions") rows)
    as [rows' [w' Hrows']].
  { intros r Hr. apply handle_nested_tables_returns. apply Hdepth in Hr.
    apply depth_get in G. apply depth_get in Go. rewrite !depth_JDict in *. lia. }
  eexists _, _.
  eapply bind_Ok; [exact Hrows|].
  eapply bind_Ok; [exact Hrows'|reflexivity].
Qed.

Lemma transform_return_Ok fuel data data2 w :
  transform_return fuel data = (Ok data2, w) ->
  match Dict.get "return" data with
  | Some (JDict (e :: table)) =>
      exists rows,
        data2 = Dict.set "return" (JList (map JDict rows)) data /\
        records_of_table "contains" (e :: table) rows
  | _ => data2 = data
  end.
Proof.
  rewrite transform_return_eq.
  destruct (Dict.get "return" data) as [v|] eqn:G.
  2:{ intros H. now inversion H. }
  destruct v; try (intros H; now inversion H).
  destruct d as [|e table].
  { intros H. now inversion H. }
  intros H.
  apply bind_Ok_inv in H. destruct H as [rows [w1 [w2 [Hrows [H _]]]]].
  apply bind_Ok_inv in H. destruct H as [rows' [w3 [w4 [Hrows' [H _]]]]].
  inversion H. exists rows'. split; auto.
  eapply converted_rows; eauto.
Qed.

Lemma transform_return_untouched fuel data :
  nonempty_mapping (Dict.get "return" data) = false ->
  transform_return fuel data = (Ok data, []).
Proof.
  unfold nonempty_mapping. rewrite transform_return_eq.
  destruct (Dict.get "return" data) as [v|]; auto.
  destruct v; auto. destruct d; [reflexivity|discriminate].
Qed.

Lemma transform_return_returns fuel data :
  (forall v, Dict.get "return" data = Some v -> depth v < fuel) ->
  exists data2 w, transform_return fuel data = (Ok data2, w).
Proof.
  rewrite transform_return_eq. intros Hd.
  destruct (Dict.get "return" data) as [v|] eqn:G; [|now eexists _, _].
  destruct v; try now eexists _, _.
  destruct d as [|e table]; [now eexists _, _|].
  destruct (dict_to_named_list_rows (e :: table)) as [rows [w [Hrows Hdepth]]].
  destruct (mapM_total (fun r => handle_nested_tables fuel r "contains") rows)
    as [rows' [w' Hrows']].
  { intros r Hr. apply handle_nested_tables_returns. apply Hdepth in Hr.
    specialize (Hd _ eq_refl). rewrite depth_JDict in Hd. lia. }
  eexists _, _.
  eapply bind_Ok; [exact Hrows|].
  eapply bind_Ok; [exact Hrows'|reflexivity].
Qed.

(** The normalizer returns, without raising, on every payload that is a
    mapping with ["doc"] absent or a mapping, whatever else it holds; the
    depth of the payload is enough fuel. *)
Lemma transform_doc_strings_returns fuel data :
  doc_absent_or_mapping data = true ->
  depth (JDict data) <= fuel ->
  exists out w, _transform_doc_strings fuel (JDict data) = (Ok (JDict out), w).
Proof.
  intros Hdoc Hd. unfold _transform_doc_strings.
  destruct (transform_options_returns fuel data Hdoc Hd) as [data1 [w1 H1]].
  destruct (transform_return_returns fuel data1) as [data2 [w2 H2]].
  { intros v Gv.
    assert (G : Dict.get "return" data = Some v).
    { apply transform_options_Ok in H1.
      destruct (Dict.get "doc" data) as [d|]; [|now subst].
      destruct d; try contradiction.
      destruct (Dict.get "options" d) as [o|]; [|now subst].
      destruct o; try now subst.
      destruct H1 as [rows [-> _]].
      rewrite DictFacts.get_set_other in Gv; auto. discriminate. }
    apply depth_get in G. rewrite depth_JDict in Hd. lia. }
  eexists _, _.
  eapply bind_Ok; [exact H1|].
  eapply bind_Ok; [exact H2|reflexivity].
Qed.

(** More fuel does not change what the normalizer returns. *)
Lemma transform_doc_strings_fuel_mono fuel fuel' data out w :
  fuel <= fuel' ->
  _transform_doc_strings fuel data = (Ok out, w) ->
  _transform_doc_strings fuel' data = (Ok out, w).
Proof.
  intros Hle. destruct data; try discriminate.
  unfold _transform_doc_strings. intros H.
  apply bind_Ok_inv in H. destruct H as [data1 [w1 [w2 [H1 [H ->]]]]].
  apply bind_Ok_inv in H. destruct H as [data2 [w3 [w4 [H2 [H ->]]]]].
  apply bind_Ok with (a := data1).
  - rewrite transform_options_eq in *.
    destruct (Dict.get "doc" d) as [v|]; auto.
    destruct v; auto.
    destruct (Dict.get "options" d0) as [o|]; auto.
    destruct o; auto.
    apply bind_Ok_inv in H1. destruct H1 as [rows [w5 [w6 [Hr [H1 ->]]]]].
    apply bind_Ok_inv in H1. destruct H1 as [rows' [w7 [w8 [Hr' [H1 ->]]]]].
    apply bind_Ok with (a := rows); auto.
    apply bind_Ok with (a := rows'); auto.
    eapply mapM_mono; [|exact Hr'].
    intros x y w' _ Hx. eapply handle_nested_tables_fuel_mono; eauto.
  - apply bind_Ok with (a := data2); auto.
    rewrite transform_return_eq in *.
    destruct (Dict.get "return" data1) as [v|]; auto.
    destruct v; auto.
    destruct d0 as [|e table]; auto.
    apply bind_Ok_inv in H2. destruct H2 as [rows [w5 [w6 [Hr [H2 ->]]]]].
    apply bind_Ok_inv in H2. destruct H2 as [rows' [w7 [w8 [Hr' [H2 ->]]]]].
    apply bind_Ok with (a := rows); auto.
    apply bind_Ok with (a := rows'); auto.
    eapply mapM_mono; [|exact Hr'].
    intros x y w' _ Hx. eapply handle_nested_tables_fuel_mono; eauto.
Qed.

Lemma same_except_refl table_key obj : same_except table_key obj obj.
Proof. now split. Qed.

Lemma same_except_set table_key v obj :
  Dict.get table_key obj <> None ->
  same_except table_key obj (Dict.set table_key v obj).
Proof.
  intros G. split.
  - now apply DictFacts.keys_set_present.
  - intros k Hk. now apply DictFacts.get_set_other.
Qed.

(** The table under [table_key] is replaced by its records. *)
Lemma handle_nested_tables_rows fuel obj table_key obj' w table :
  handle_nested_tables fuel obj table_key = (Ok obj', w) ->
  Dict.get table_key obj = Some (JDict table) ->
  exists rows,
    obj' = Dict.set table_key (JList (map JDict rows)) obj /\
    records_of_table table_key table rows.
Proof.
  destruct fuel as [|fuel]; simpl; [discriminate|].
  intros H G. rewrite G in H.
  apply bind_Ok_inv in H. destruct H as [rows [w1 [w2 [Hrows [H _]]]]].
  apply bind_Ok_inv in H. destruct H as [rows' [w3 [w4 [Hrows' [H _]]]]].
  inversion H. exists rows'. split; auto.
  eapply converted_rows; eauto.
Qed.

(** What the first step changes: the ["options"] field of ["doc"]. *)
Lemma transform_options_frame fuel data data1 w :
  transform_options fuel data = (Ok data1, w) ->
  same_except "doc" data data1 /\
  match Dict.get "doc" data with
  | Some (JDict doc) =>
      exists doc',
        Dict.get "doc" data1 = Some (JDict doc') /\
        same_except "options" doc doc' /\
        forall table,
          Dict.get "options" doc = Some (JDict table) ->
          exists rows,
            Dict.get "options" doc' = Some (JList (map JDict rows)) /\
            records_of_table "suboptions" table rows
  | Some _ => False
  | None => Dict.get "doc" data1 = None
  end.
Proof.
  intros H. apply transform_options_Ok in H.
  destruct (Dict.get "doc" data) as [v|] eqn:G.
  2:{ subst. split; [apply same_except_refl|assumption]. }
  destruct v; try contradiction.
  destruct (Dict.get "options" d) as [o|] eqn:Go.
  2:{ subst. split; [apply same_except_refl|].
      exists d. split; auto. split; [apply same_except_refl|].
      intros table Ht. discriminate. }
  destruct o;
    try (subst; split; [apply same_except_refl|];
         exists d; split; auto; split; [apply same_except_refl|];
         intros table Ht; discriminate).
  destruct H as [rows [-> Hrec]]. split.
  - apply same_except_set. now rewrite G.
  - eexists. split; [apply DictFacts.get_set_same|]. split.
    + apply same_except_set. now rewrite Go.
    + intros table Ht. inversion Ht; subst. exists rows. split; auto.
      apply DictFacts.get_set_same.
Qed.

(** What the second step changes: the ["return"] field. *)
Lemma transform_return_frame fuel data data2 w :
  transform_return fuel data = (Ok data2, w) ->
  same_except "return" data data2 /\
  (nonempty_mapping (Dict.get "return" data) = false ->
   Dict.get "return" data2 = Dict.get "return" data) /\
  forall table,
    Dict.get "return" data = Some (JDict table) ->
    table <> [] ->
    exists rows,
      Dict.get "return" data2 = Some (JList (map JDict rows)) /\
      records_of_table "contains" table rows.
Proof.
  intros H. apply transform_return_Ok in H.
  destruct (Dict.get "return" data) as [v|] eqn:G.
  2:{ subst. split; [apply same_except_refl|]. split; auto.
      intros table Ht. discriminate. }
  destruct v;
    try (subst; split; [apply same_except_refl|]; split; auto;
         intros table Ht; discriminate).
  destruct d as [|e table'].
  { subst. split; [apply same_except_refl|]. split; auto.
    intros table Ht Hne. inversion Ht; subst. contradiction. }
  destruct H as [rows [-> Hrec]]. split; [|split].
  - apply same_except_set. now rewrite G.
  - discriminate.
  - intros table Ht _. inversion Ht; subst. exists rows. split; auto.
    apply DictFacts.get_set_same.
Qed.

(** C1 (the code differs): a payload whose ["doc"] field is present but not
    a mapping makes the normalizer raise [AttributeError], at [doc.get]:
    [null], a string, a list. *)
Theorem doc_not_a_mapping_raises (fuel : nat) :
  _transform_doc_strings fuel (JDict [("doc", JNull)])
    = (Raise AttributeError, []) /\
  _transform_doc_strings fuel (JDict [("doc", JStr "text")])
    = (Raise AttributeError, []) /\
  _transform_doc_strings fuel (JDict [("doc", JList [])])
    = (Raise AttributeError, []).
Proof. repeat split. Qed.

(** C6 (the code differs): with ["return"] equal to [None] the normalizer
    still raises when ["doc"] is [null]. *)
Theorem return_none_with_null_doc_raises (fuel : nat) :
  _transform_doc_strings fuel (JDict [("doc", JNull); ("return", JNull)])
    = (Raise AttributeError, []).
Proof. reflexivity. Qed.

(** The part of C6 the code keeps: unless ["doc"] is present and not a
    mapping, the normalizer returns and the ["return"] field that is absent,
    [None], empty or not a mapping is as it was. *)
Lemma return_left_untouched fuel data :
  doc_absent_or_mapping data = true ->
  depth (JDict data) <= fuel ->
  nonempty_mapping (Dict.get "return" data) = false ->
  exists out w,
    _transform_doc_strings fuel (JDict data) = (Ok (JDict out), w) /\
    Dict.get "return" out = Dict.get "return" data.
Proof.
  intros Hdoc Hd Hret.
  destruct (transform_doc_strings_returns fuel data Hdoc Hd) as [out [w H]].
  exists out, w. split; auto.
  unfold _transform_doc_strings in H.
  apply bind_Ok_inv in H. destruct H as [data1 [w1 [w2 [H1 [H _]]]]].
  apply bind_Ok_inv in H. destruct H as [data2 [w3 [w4 [H2 [H _]]]]].
  inversion H; subst out.
  apply transform_options_frame in H1. destruct H1 as [[_ F1] _].
  apply transform_return_frame in H2. destruct H2 as [_ [F2 _]].
  assert (E : Dict.get "return" data1 = Dict.get "return" data)
    by (apply F1; discriminate).
  rewrite F2; rewrite E; auto.
Qed.

Lemma Forall2_map_l_in {A B C} (R : B -> C -> Prop) (Q : A -> C -> Prop)
  (f : A -> B) l l' :
  (forall x y, In x l -> R (f x) y -> Q x y) ->
  Forall2 R (map f l) l' -> Forall2 Q l l'.
Proof.
  revert l'. induction l as [|x l IH]; intros l' HRQ H; simpl in H.
  - inversion H. constructor.
  - inversion H; subst. constructor.
    + apply HRQ; auto. now left.
    + apply IH; auto. intros x' y' Hin. apply HRQ. now right.
Qed.

(** The rows of a table after the recursion, given what the recursion does
    to each row. *)
Lemma converted_table_rows_of fuel table_key table rows w1 rows' w2 :
  (forall obj obj' w,
      handle_nested_tables fuel obj table_key = (Ok obj', w) ->
      converted_record table_key obj obj') ->
  dict_to_named_list table = (Ok rows, w1) ->
  mapM (fun row => handle_nested_tables fuel row table_key) rows = (Ok rows', w2) ->
  converted_table table_key table rows'.
Proof.
  intros IH Hrows Hrows'. rewrite dict_to_named_list_eq in Hrows.
  apply mapM_Ok_inv in Hrows'.
  destruct (all_mappings table) eqn:Hall; inversion Hrows; subst rows.
  - split; [intros E; congruence|]. intros _.
    eapply Forall2_map_l_in; [|exact Hrows'].
    intros key r Hin [w Hnt]. cbv beta in Hnt.
    destruct (all_mappings_get table key Hall Hin) as [fields G].
    exists fields. split; auto.
    rewrite <- (record_of_get _ _ _ G). eapply IH; eauto.
  - inversion Hrows'. split; [reflexivity|intros E; congruence].
Qed.

(** [handle_nested_tables] converts the tables under its key at every depth
    and changes nothing else. *)
Lemma handle_nested_tables_converted fuel :
  forall obj table_key obj' w,
    handle_nested_tables fuel obj table_key = (Ok obj', w) ->
    converted_record table_key obj obj'.
Proof.
  induction fuel as [|fuel IH]; intros obj tk obj' w H;
    cbn [handle_nested_tables] in H; [discriminate|].
  destruct (Dict.get tk obj) as [v|] eqn:G.
  2:{ inversion H; subst. apply converted_no_table. intros t. congruence. }
  destruct v;
    try (inversion H; subst; apply converted_no_table; intros t; congruence).
  apply bind_Ok_inv in H. destruct H as [rows [w1 [w2 [Hrows [H _]]]]].
  apply bind_Ok_inv in H. destruct H as [rows' [w3 [w4 [Hrows' [H _]]]]].
  inversion H; subst obj'.
  assert (Ht : converted_table tk d rows').
  { eapply converted_table_rows_of; eauto. }
  destruct Ht as [Ht1 Ht2].
  eapply converted_table_rows; eauto.
  - apply DictFacts.keys_set_present. now rewrite G.
  - intros k Hk. now apply DictFacts.get_set_other.
  - apply DictFacts.get_set_same.
Qed.

(** What the first step changes, with the rows it writes. *)
Lemma transform_options_converted fuel data data1 w :
  transform_options fuel data = (Ok data1, w) ->
  match Dict.get "doc" data with
  | Some (JDict doc) =>
      exists doc',
        Dict.get "doc" data1 = Some (JDict doc') /\
        ((forall table, Dict.get "options" doc <> Some (JDict table)) ->
         doc' = doc) /\
        forall table,
          Dict.get "options" doc = Some (JDict table) ->
          exists rows,
            Dict.get "options" doc' = Some (JList (map JDict rows)) /\
            records_of_table "suboptions" table rows /\
            converted_table "suboptions" table rows
  | _ => True
  end.
Proof.
  intros H. pose proof (transform_options_Ok _ _ _ _ H) as HOk.
  rewrite transform_options_eq in H.
  destruct (Dict.get "doc" data) as [v|] eqn:G; [|exact I].
  destruct v; try exact I.
  destruct (Dict.get "options" d) as [o|] eqn:Go.
  2:{ subst. exists d. split; auto. split; auto. intros t Ht. discriminate. }
  destruct o;
    try (subst; exists d; split; auto; split; auto;
         intros t Ht; discriminate).
  apply bind_Ok_inv in H. destruct H as [rows [w1 [w2 [Hrows [H _]]]]].
  apply bind_Ok_inv in H. destruct H as [rows' [w3 [w4 [Hrows' [H _]]]]].
  inversion H; subst data1.
  eexists. split; [apply DictFacts.get_set_same|]. split.
  - intros Hno. exfalso. now apply (Hno d0).
  - intros table Ht. inversion Ht; subst table. exists rows'.
    split; [apply DictFacts.get_set_same|]. split.
    + eapply converted_rows; eauto.
    + eapply converted_table_rows_of; eauto.
      intros obj obj' w'. apply handle_nested_tables_converted.
Qed.

(** What the second step writes under ["return"]. *)
Lemma transform_return_converted fuel data data2 w table :
  transform_return fuel data = (Ok data2, w) ->
  Dict.get "return" data = Some (JDict table) ->
  table <> [] ->
  exists rows,
    Dict.get "return" data2 = Some (JList (map JDict rows)) /\
    records_of_table "contains" table rows /\
    converted_table "contains" table rows.
Proof.
  intros H G Hne. rewrite transform_return_eq, G in H.
  destruct table as [|e table]; [contradiction|].
  apply bind_Ok_inv in H. destruct H as [rows [w1 [w2 [Hrows [H _]]]]].
  apply bind_Ok_inv in H. destruct H as [rows' [w3 [w4 [Hrows' [H _]]]]].
  inversion H; subst data2. exists rows'.
  split; [apply DictFacts.get_set_same|]. split.
  - eapply converted_rows; eauto.
  - eapply converted_table_rows_of; eauto.
    intros obj obj' w'. apply handle_nested_tables_converted.
Qed.

(** C7: what the normalizer leaves alone. In the payload, the keys and
    their order, and every field but ["doc"] and ["return"]; in ["doc"], the
    keys and every field but ["options"], and all of it when ["options"] is
    not a mapping; ["return"] itself unless it is a non-empty mapping. A
    converted table holds the records of its own entries, and, at every
    depth below it, a record keeps its keys and the value under every key
    but the nested-table key, under which a table has become the list of
    the records of its entries ([converted_record]). *)
Theorem normalizer_frame (fuel : nat) (data : dict) (out : json) (w : list event) :
  _transform_doc_strings fuel (JDict data) = (Ok out, w) ->
  exists fields,
    out = JDict fields /\
    Dict.keys fields = Dict.keys data /\
    (forall k, k <> "doc" -> k <> "return" ->
               Dict.get k fields = Dict.get k data) /\
    (Dict.get "doc" data = None -> Dict.get "doc" fields = None) /\
    (forall v,
        Dict.get "doc" data = Some v ->
        exists doc doc',
          v = JDict doc /\
          Dict.get "doc" fields = Some (JDict doc') /\
          same_except "options" doc doc' /\
          ((forall table, Dict.get "options" doc <> Some (JDict table)) ->
           doc' = doc) /\
          forall table,
            Dict.get "options" doc = Some (JDict table) ->
            exists rows,
              Dict.get "options" doc' = Some (JList (map JDict rows)) /\
              records_of_table "suboptions" table rows /\
              converted_table "suboptions" table rows) /\
    (nonempty_mapping (Dict.get "return" data) = false ->
     Dict.get "return" fields = Dict.get "return" data) /\
    (forall table,
        Dict.get "return" data = Some (JDict table) ->
        table <> [] ->
        exists rows,
          Dict.get "return" fields = Some (JList (map JDict rows)) /\
          records_of_table "contains" table rows /\
          converted_table "contains" table rows) /\
    (forall fuel' obj table_key obj' w',
        handle_nested_tables fuel' obj table_key = (Ok obj', w') ->
        same_except table_key obj obj' /\
        converted_record table_key obj obj').
Proof.
  intros H. unfold _transform_doc_strings in H.
  apply bind_Ok_inv in H. destruct H as [data1 [w1 [w2 [H1 [H _]]]]].
  apply bind_Ok_inv in H. destruct H as [data2 [w3 [w4 [H2 [H _]]]]].
  inversion H; subst out. exists data2. split; [reflexivity|].
  pose proof (transform_options_converted _ _ _ _ H1) as C1.
  pose proof (transform_options_frame _ _ _ _ H1) as [[K1 F1] D1].
  pose proof (transform_return_frame _ _ _ _ H2) as [[K2 F2] [U2 _]].
  assert (Edoc : Dict.get "doc" data2 = Dict.get "doc" data1)
    by (apply F2; discriminate).
  assert (Eret : Dict.get "return" data1 = Dict.get "return" data)
    by (apply F1; discriminate).
  split; [congruence|].
  split; [intros k Hd Hr; rewrite F2, F1; auto|].
  split.
  { intros G. rewrite G in D1. congruence. }
  split.
  { intros v G. rewrite G in D1, C1. destruct v; try contradiction.
    destruct D1 as [doc1 [Gd [Hs _]]].
    destruct C1 as [doc' [Gd' [Hsame Hrows]]].
    assert (doc1 = doc') by congruence. subst doc1.
    exists d, doc'. split; [reflexivity|]. split; [congruence|].
    split; [exact Hs|]. split; [exact Hsame|exact Hrows]. }
  split.
  { intros Hr. rewrite U2; rewrite Eret; auto. }
  split.
  { intros table G Hne.
    eapply transform_return_converted; eauto. congruence. }
  intros fuel' obj tk obj' w' Hnt. split.
  - eapply handle_nested_tables_frame; eauto.
  - eapply handle_nested_tables_converted; eauto.
Qed.

Lemma normalizer_frame_witness :
  let data :=
    [("doc", JDict [("short_description", JStr "s");
                    ("options", JDict
                       [("opt1", JDict
                           [("description", JStr "x");
                            ("suboptions", JDict
                               [("sub1", JDict [("type", JStr "int")])])])])]);
     ("examples", JStr "e");
     ("return", JDict [("out", JDict [("type", JStr "str")])])] in
  let out :=
    JDict
      [("doc", JDict [("short_description", JStr "s");
                      ("options", JList
                         [JDict [("name", JStr "opt1");
                                 ("description", JStr "x");
                                 ("suboptions", JList
                                    [JDict [("name", JStr "sub1");
                                            ("type", JStr "int")]])]])]);
       ("examples", JStr "e");
       ("return", JList [JDict [("name", JStr "out"); ("type", JStr "str")]])] in
  _transform_doc_strings 2 (JDict data) = (Ok out, []) /\
  exists fields,
    out = JDict fields /\
    Dict.keys fields = Dict.keys data /\
    (forall k, k <> "doc" -> k <> "return" ->
               Dict.get k fields = Dict.get k data).
Proof.
  cbv zeta. split; [reflexivity|].
  destruct (normalizer_frame 2 _ _ [] (eq_refl
              : _transform_doc_strings 2 (JDict
                  [("doc", JDict [("short_description", JStr "s");
                                  ("options", JDict
                                     [("opt1", JDict
                                         [("description", JStr "x");
                                          ("suboptions", JDict
                                             [("sub1", JDict [("type", JStr "int")])])])])]);
                   ("examples", JStr "e");
                   ("return", JDict [("out", JDict [("type", JStr "str")])])])
                = (Ok _, [])))
    as [fields [H1 [H2 [H3 _]]]].
  exists fields. auto.
Defined.

(** ** Trees nested to three levels *)

Lemma get_app_middle k v pre post :
  ~ In k (Dict.keys pre) -> Dict.get k (pre ++ (k, v) :: post) = Some v.
Proof.
  induction pre as [|[k' v'] pre IH]; simpl; intros Hk.
  - now rewrite String.eqb_refl.
  - destruct (String.eqb k k') eqn:E.
    + apply String.eqb_eq in E. subst. exfalso. apply Hk. now left.
    + apply IH. intros Hin. apply Hk. now right.
Qed.

Lemma set_app_middle k v v' pre post :
  ~ In k (Dict.keys pre) ->
  Dict.set k v' (pre ++ (k, v) :: post) = pre ++ (k, v') :: post.
Proof.
  induction pre as [|[k0 v0] pre IH]; simpl; intros Hk.
  - now rewrite String.eqb_refl.
  - destruct (String.eqb k k0) eqn:E.
    + apply String.eqb_eq in E. subst. exfalso. apply Hk. now left.
    + f_equal. apply IH. intros Hin. apply Hk. now right.
Qed.

Lemma mapM_map_pure {A B C} (f : B -> M C) (g : A -> B) (r : A -> C) l :
  (forall e, In e l -> f (g e) = (Ok (r e), [])) ->
  mapM f (map g l) = (Ok (map r l), []).
Proof.
  induction l as [|x l IH]; intros H; simpl; auto.
  apply (bind_Ok _ _ (r x) [] _ []); [apply H; now left|].
  apply (bind_Ok _ _ (map r l) [] _ []); auto.
  apply IH. intros e He. apply H. now right.
Qed.

Lemma get_table_of {E} (key : E -> string) (value : E -> dict) l e :
  NoDup (map key l) -> In e l ->
  Dict.get (key e) (table_of key value l) = Some (JDict (value e)).
Proof.
  intros Hnd Hin. apply DictFacts.get_in_nodup.
  - unfold Dict.keys, table_of. rewrite map_map. exact Hnd.
  - unfold table_of.
    exact (in_map (fun e => (key e, JDict (value e))) l e Hin).
Qed.

(** The records of a table given by its entries. *)
Lemma dict_to_named_list_table_of {E} (key : E -> string) (value : E -> dict) l :
  NoDup (map key l) ->
  dict_to_named_list (table_of key value l) =
    (Ok (map (fun e => Dict.merge [("name", JStr (key e))] (value e)) l), []).
Proof.
  intros Hnd. rewrite dict_to_named_list_eq.
  assert (Hkeys : Dict.keys (table_of key value l) = map key l).
  { unfold Dict.keys, table_of. now rewrite map_map. }
  assert (Hall : all_mappings (table_of key value l) = true).
  { unfold all_mappings. rewrite Hkeys. apply forallb_forall.
    intros k Hk. apply in_map_iff in Hk. destruct Hk as [e [<- He]].
    unfold is_mapping_at. now rewrite get_table_of. }
  rewrite Hall, Hkeys, map_map. do 2 f_equal.
  apply map_ext_in. intros e He.
  apply record_of_get. now apply get_table_of.
Qed.

Section Level.

Variable table_key : string.
Hypothesis table_key_not_name : table_key <> "name".

Lemma merge_name_fresh k fields :
  NoDup ("name" :: Dict.keys fields) ->
  Dict.merge [("name", JStr k)] fields = ("name", JStr k) :: fields.
Proof.
  intros Hnd. inversion Hnd; subst.
  apply (DictFacts.merge_app_fresh [("name", JStr k)] fields); auto.
  intros k' Hk' [<-|[]]. contradiction.
Qed.

(** A record of the last level has no nested table: it is left as built. *)
Lemma leaf_converted fuel e :
  leaf_ok table_key e = true ->
  handle_nested_tables (S fuel)
    (Dict.merge [("name", JStr (leaf_key e))] (leaf_fields e)) table_key
  = (Ok (leaf_row e), []).
Proof.
  unfold leaf_ok, is_mapping_at. rewrite andb_true_iff, negb_true_iff.
  intros [Hnd Hno]. apply DictFacts.nodupb_NoDup in Hnd.
  rewrite merge_name_fresh by assumption. simpl.
  destruct (String.eqb table_key "name") eqn:E.
  { apply String.eqb_eq in E. contradiction. }
  destruct (Dict.get table_key (leaf_fields e)) as [v|]; [|reflexivity].
  destruct v; try reflexivity. discriminate.
Qed.

(** A record with a nested table: given that the recursion turns the record
    of every entry of the nested table into the expected one, the table is
    replaced by the list of them. *)
Lemma node_converted {T} (sub_key : T -> string) (sub_value sub_row : T -> dict)
  (sub_ok : T -> bool) fuel e :
  (forall s, sub_ok s = true ->
     handle_nested_tables fuel
       (Dict.merge [("name", JStr (sub_key s))] (sub_value s)) table_key
     = (Ok (sub_row s), [])) ->
  node_ok table_key sub_key sub_ok e = true ->
  handle_nested_tables (S fuel)
    (Dict.merge [("name", JStr (node_key e))]
       (node_value table_key sub_key sub_value e)) table_key
  = (Ok (node_row table_key sub_row e), []).
Proof.
  intros Hsub. unfold node_ok. rewrite !andb_true_iff.
  intros [[Hnd Hkeys] Hoks].
  apply DictFacts.nodupb_NoDup in Hnd. apply DictFacts.nodupb_NoDup in Hkeys.
  rewrite forallb_forall in Hoks.
  unfold node_value, node_row.
  rewrite merge_name_fresh.
  2:{ unfold Dict.keys in *. now rewrite map_app. }
  assert (Hfresh : ~ In table_key
                     (Dict.keys (("name", JStr (node_key e)) :: node_before e))).
  { inversion Hnd as [|? ? _ Hnd']; subst.
    apply NoDup_remove_2 in Hnd'.
    simpl. intros [Hn|Hin]; [now apply table_key_not_name|].
    apply Hnd'. apply in_or_app. now left. }
  change (("name", JStr (node_key e))
            :: node_before e ++ ?x :: node_after e)
    with ((("name", JStr (node_key e)) :: node_before e) ++ x :: node_after e).
  cbn [handle_nested_tables].
  rewrite get_app_middle by assumption.
  eapply (bind_Ok _ _ _ [] _ []);
    [apply dict_to_named_list_table_of; assumption|].
  eapply (bind_Ok _ _ _ [] _ []).
  - apply (mapM_map_pure _ _ sub_row). intros s Hs. apply Hsub. now apply Hoks.
  - unfold ret. now rewrite set_app_middle by assumption.
Qed.

End Level.

(** C4: the normalizer turns the example payload into the expected one, and,
    for every tree of options nested to three levels, turns [doc.options]
    into the list of the records of the first level, each holding under
    ["suboptions"] the list of the records of the second level, each holding
    the list of the records of the third; every record starts with the key
    of its entry under ["name"]. *)
Theorem three_levels_converted (fuel : nat) (tree : tree3) :
  tree3_ok "suboptions" tree = true ->
  _transform_doc_strings (2 + fuel) example_payload
    = (Ok example_normalized, []) /\
  _transform_doc_strings (3 + fuel)
    (JDict [("doc", JDict [("options", JDict (table3 "suboptions" tree))])])
    = (Ok (JDict [("doc", JDict [("options", JList (rows3 "suboptions" tree))])]),
       []).
Proof.
  intros Hok. split; [reflexivity|].
  unfold tree3_ok in Hok. rewrite andb_true_iff in Hok.
  destruct Hok as [Hkeys Hoks].
  apply DictFacts.nodupb_NoDup in Hkeys. rewrite forallb_forall in Hoks.
  assert (Hname : "suboptions" <> "name") by discriminate.
  unfold _transform_doc_strings.
  eapply (bind_Ok _ _ _ [] _ []).
  - rewrite transform_options_eq. cbn [Dict.get String.eqb Ascii.eqb Bool.eqb].
    eapply (bind_Ok _ _ _ [] _ []);
      [apply dict_to_named_list_table_of; assumption|].
    eapply (bind_Ok _ _ _ [] _ []); [|reflexivity].
    apply (mapM_map_pure _ _
             (node_row "suboptions" (node_row "suboptions" leaf_row))).
    intros e He.
    apply (node_converted "suboptions" Hname node_key _ _
             (node_ok "suboptions" leaf_key (leaf_ok "suboptions")));
      [|now apply Hoks].
    intros s Hs.
    apply (node_converted "suboptions" Hname leaf_key _ _
             (leaf_ok "suboptions")); [|assumption].
    intros l Hl. now apply leaf_converted.
  - eapply (bind_Ok _ _ _ [] _ []); [|reflexivity].
    rewrite transform_return_eq. reflexivity.
Qed.

(** The tables and rows of a small tree, written out. *)
Example table3_rows3_example :
  let leaf := {| leaf_key := "port"; leaf_fields := [("type", JStr "int")] |} in
  let mid := {| node_key := "server";
                node_before := [("type", JStr "dict")];
                node_sub := [leaf];
                node_after := [("required", JBool true)] |} in
  let tree := [ {| node_key := "config";
                   node_before := [("description", JStr "settings")];
                   node_sub := [mid];
                   node_after := [] |} ] in
  table3 "suboptions" tree =
    [("config", JDict
        [("description", JStr "settings");
         ("suboptions", JDict
            [("server", JDict
                [("type", JStr "dict");
                 ("suboptions", JDict [("port", JDict [("type", JStr "int")])]);
                 ("required", JBool true)])])])] /\
  rows3 "suboptions" tree =
    [JDict
       [("name", JStr "config");
        ("description", JStr "settings");
        ("suboptions", JList
           [JDict
              [("name", JStr "server");
               ("type", JStr "dict");
               ("suboptions", JList
                  [JDict [("name", JStr "port"); ("type", JStr "int")]]);
               ("required", JBool true)]])]].
Proof. split; reflexivity. Qed.

Lemma three_levels_converted_witness :
  let leaf := {| leaf_key := "port"; leaf_fields := [("type", JStr "int")] |} in
  let mid := {| node_key := "server";
                node_before := [("type", JStr "dict")];
                node_sub := [leaf];
                node_after := [("required", JBool true)] |} in
  let tree := [ {| node_key := "config";
                   node_before := [("description", JStr "settings")];
                   node_sub := [mid];
                   node_after := [] |} ] in
  tree3_ok "suboptions" tree = true /\
  _transform_doc_strings 2 example_payload = (Ok example_normalized, []) /\
  _transform_doc_strings 3
    (JDict [("doc", JDict [("options", JDict (table3 "suboptions" tree))])])
    = (Ok (JDict [("doc", JDict [("options", JList (rows3 "suboptions" tree))])]),
       []).
Proof.
  cbv zeta. split; [reflexivity|].
  apply (three_levels_converted 0). reflexivity.
Defined.

(** ** [load] *)

(** [sorted] returns the strings it is given, in non-decreasing order. *)
Lemma insert_sorted_perm x l : Permutation (x :: l) (insert_sorted x l).
Proof.
  induction l as [|y l IH]; simpl; auto.
  destruct (String.leb x y); auto.
  eapply perm_trans; [apply perm_swap|]. now constructor.
Qed.

Lemma sorted_perm l : Permutation l (sorted l).
Proof.
  induction l as [|x l IH]; simpl; auto.
  eapply perm_trans; [|apply insert_sorted_perm]. now constructor.
Qed.

Lemma insert_sorted_ordered x l :
  StronglySorted (fun a b => String.leb a b = true) l ->
  StronglySorted (fun a b => String.leb a b = true) (insert_sorted x l).
Proof.
  induction 1 as [|y l Hs IH Hall]; simpl.
  - repeat constructor.
  - destruct (String.leb x y) eqn:E.
    + constructor; [now constructor|].
      constructor; auto.
      eapply Forall_impl; [|exact Hall].
      intros z Hz. unfold String.leb in *.
      destruct (String.compare x y) eqn:Cxy; try discriminate;
        destruct (String.compare y z) eqn:Cyz; try discriminate.
      * apply String.compare_eq_iff in Cxy. subst. now rewrite Cyz.
      * apply String.compare_eq_iff in Cxy. subst. now rewrite Cyz.
      * apply String.compare_eq_iff in Cyz. subst. now rewrite Cxy.
      * assert (Hxz : String.compare x z = Lt).
        { clear - Cxy Cyz. revert y z Cxy Cyz.
          induction x as [|a x IHx]; intros [|b y] [|c z]; simpl;
            try discriminate; auto.
          intros Hxy Hyz.
          destruct (Ascii.compare a b) eqn:Cab; try discriminate;
            destruct (Ascii.compare b c) eqn:Cbc; try discriminate.
          - apply Ascii.compare_eq_iff in Cab, Cbc. subst.
            unfold Ascii.compare. rewrite N.compare_refl. eauto.
          - apply Ascii.compare_eq_iff in Cab. subst. now rewrite Cbc.
          - apply Ascii.compare_eq_iff in Cbc. subst. now rewrite Cab.
          - unfold Ascii.compare in *.
            rewrite N.compare_lt_iff in *.
            assert (H : (N_of_ascii a < N_of_ascii c)%N) by lia.
            apply N.compare_lt_iff in H. now rewrite H. }
        now rewrite Hxz.
    + constructor; auto.
      assert (Hyx : String.leb y x = true).
      { destruct (String.leb_total x y) as [H|H]; congruence. }
      apply (Permutation_Forall (insert_sorted_perm x l)).
      constructor; auto.
Qed.

Lemma sorted_ordered l :
  StronglySorted (fun a b => String.leb a b = true) (sorted l).
Proof.
  induction l as [|x l IH]; simpl; [constructor|].
  now apply insert_sorted_ordered.
Qed.

Lemma sorted_nil l : sorted l = [] -> l = [].
Proof.
  destruct l as [|x l]; auto. simpl.
  destruct (sorted l) as [|y l']; simpl; [discriminate|].
  destruct (String.leb x y); discriminate.
Qed.

Section LoaderFacts.

Variable which : string -> option string.
Variable communicate : list string -> string -> Z * string * string.
Variable json_loads : string -> option json.
Variable ANSIBLE_DOC_SUPPORTED_TYPES : list string.
Variable self : DocStringLoader.


(** Running a command leaves its [Popen] event. *)
Lemma run_cmd_events cmd r w :
  run_cmd communicate json_loads self cmd = (r, w) -> In (Popen cmd (_collections_path self)) w.
Proof.
  unfold run_cmd, emit, bind.
  destruct (communicate cmd (_collections_path self)) as [[rc out] err].
  destruct (negb (Z.eqb rc 0)).
  - simpl. intros H. inversion H. simpl. auto.
  - destruct (json_loads out); simpl; intros H; inversion H; simpl; auto.
Qed.

(** The loop of [_process_doc_strings]: every payload is normalized, and the
    results are stored under the keys of the payloads. *)
Lemma process_items_Ok fuel items :
  forall acc processed w,
    process_items fuel items acc = (Ok processed, w) ->
    exists outs,
      Forall2 (fun kv out => fst (_transform_doc_strings fuel (snd kv)) = Ok out)
              items outs /\
      processed = Dict.merge acc (combine (Dict.keys items) outs).
Proof.
  induction items as [|[k v] items IH]; intros acc processed w H; simpl in H.
  - inversion H. exists []. split; [constructor|reflexivity].
  - apply bind_Ok_inv in H. destruct H as [v' [w1 [w2 [Hv [H _]]]]].
    apply IH in H. destruct H as [outs [HF ->]].
    exists (v' :: outs). split; [|reflexivity].
    constructor; auto. simpl. now rewrite Hv.
Qed.

Lemma load_loop_Ok fuel types :
  forall docs0 docs w,
    load_loop communicate json_loads self fuel types docs0 = (Ok docs, w) ->
    forall pt,
      (list_plugins communicate json_loads self pt = Ok (JDict []) -> Dict.get pt docs = Dict.get pt docs0) /\
      (~ In pt types -> Dict.get pt docs = Dict.get pt docs0) /\
      (forall found,
          In pt types ->
          list_plugins communicate json_loads self pt = Ok (JDict found) ->
          found <> [] ->
          In (Popen (doc_cmd self pt (sorted (Dict.keys found)))
                    (_collections_path self)) w /\
          exists payloads outs,
            fetch_docs communicate json_loads self pt (sorted (Dict.keys found)) = Ok (JDict payloads) /\
            Forall2
              (fun kv out => fst (_transform_doc_strings fuel (snd kv)) = Ok out)
              payloads outs /\
            Dict.get pt docs =
              Some (JDict (Dict.merge [] (combine (Dict.keys payloads) outs)))).
Proof.
  induction types as [|pt0 types IH]; intros docs0 docs w H pt; simpl in H.
  - inversion H; subst. split; [auto|]. split; [auto|]. intros found [].
  - apply bind_Ok_inv in H. destruct H as [fp [w1 [w2 [Hfp [H ->]]]]].
    apply bind_Ok_inv in H. destruct H as [ks [w3 [w4 [Hks [H ->]]]]].
    assert (Hlist : list_plugins communicate json_loads self pt0 = Ok fp).
    { unfold list_plugins. now rewrite Hfp. }
    destruct fp; try discriminate.
    unfold py_keys, ret in Hks. inversion Hks; subst ks w3. clear Hks.
    destruct (sorted (Dict.keys d)) as [|p ps] eqn:Hs.
    + (* no plugin of this type: the type is skipped *)
      apply sorted_nil in Hs. destruct d; [|discriminate].
      destruct (IH _ _ _ H pt) as [IH1 [IH2 IH3]].
      split; [exact IH1|]. split.
      * intros Hn. apply IH2. intros Hin. apply Hn. now right.
      * intros found [<-|Hin] Hf Hne.
        -- rewrite Hlist in Hf. inversion Hf; subst. contradiction.
        -- destruct (IH3 found Hin Hf Hne) as [Hev Hrest].
           split; auto. apply in_or_app. right. simpl. exact Hev.
    + (* some plugins: their docs are fetched and normalized *)
      apply bind_Ok_inv in H. destruct H as [data [w5 [w6 [Hdata [H ->]]]]].
      apply bind_Ok_inv in H. destruct H as [data' [w7 [w8 [Hproc [H ->]]]]].
      destruct (IH _ _ _ H pt) as [IH1 [IH2 IH3]].
      assert (Hne0 : d <> []).
      { intros ->. discriminate. }
      split; [|split].
      * intros Hl. rewrite IH1 by assumption.
        apply DictFacts.get_set_other. intros <-.
        rewrite Hlist in Hl. inversion Hl. contradiction.
      * intros Hn. rewrite IH2 by (intros Hin; apply Hn; now right).
        apply DictFacts.get_set_other. intros <-. apply Hn. now left.
      * intros found Hin Hf Hne.
        destruct (in_dec string_dec pt types) as [Hin'|Hnin].
        -- destruct (IH3 found Hin' Hf Hne) as [Hev Hrest].
           split; auto.
           apply in_or_app. right. simpl.
           apply in_or_app. right. apply in_or_app. now right.
        -- destruct Hin as [<-|Hin]; [|contradiction].
           rewrite Hlist in Hf. inversion Hf; subst found.
           rewrite Hs. split.
           ++ apply in_or_app. right. simpl. apply in_or_app. left.
              eapply run_cmd_events. exact Hdata.
           ++ unfold _process_doc_strings in Hproc.
              apply bind_Ok_inv in Hproc.
              destruct Hproc as [items [w9 [w10 [Hitems [Hproc _]]]]].
              destruct data; try discriminate.
              unfold py_items, ret in Hitems. inversion Hitems; subst items.
              apply process_items_Ok in Hproc.
              destruct Hproc as [outs [HF ->]].
              exists d0, outs. split; [|split]; auto.
              ** unfold fetch_docs. now rewrite Hdata.
              ** rewrite IH2 by assumption. apply DictFacts.get_set_same.
Qed.

Lemma process_items_returns fuel items :
  (forall k v, In (k, v) items ->
     exists fields,
       v = JDict fields /\
       doc_absent_or_mapping fields = true /\
       depth v <= fuel) ->
  forall acc, exists processed w, process_items fuel items acc = (Ok processed, w).
Proof.
  induction items as [|[k v] items IH]; intros Hok acc; simpl.
  - now eexists _, _.
  - destruct (Hok k v) as [fields [-> [Hdoc Hd]]]; [now left|].
    destruct (transform_doc_strings_returns fuel fields Hdoc Hd) as [out [w1 H1]].
    destruct (IH (fun k' v' Hin => Hok k' v' (or_intror Hin))
                 (Dict.set k (JDict out) acc)) as [processed [w2 H2]].
    eexists _, _. eapply bind_Ok; eauto.
Qed.

(** In the model, which has no recursion limit, [load] returns when the
    tool answers every listing with a mapping and every request for docs
    with a mapping of payloads that are mappings with ["doc"] absent or a
    mapping, given fuel for the depth of the payloads. *)
Lemma load_returns fuel :
  (forall pt,
      In pt (effective_plugin_types ANSIBLE_DOC_SUPPORTED_TYPES self) ->
      exists found,
        list_plugins communicate json_loads self pt = Ok (JDict found) /\
        (found <> [] ->
         exists payloads,
           fetch_docs communicate json_loads self pt (sorted (Dict.keys found))
             = Ok (JDict payloads) /\
           forall k v, In (k, v) payloads ->
             exists fields,
               v = JDict fields /\
               doc_absent_or_mapping fields = true /\
               depth v <= fuel)) ->
  exists docs w,
    load which communicate json_loads ANSIBLE_DOC_SUPPORTED_TYPES self fuel
      = (Ok docs, w).
Proof.
  unfold load. intros Hok.
  destruct (ansible_doc_missing which).
  { eexists _, _. reflexivity. }
  assert (Hloop : forall types docs0,
             (forall pt, In pt types ->
                In pt (effective_plugin_types ANSIBLE_DOC_SUPPORTED_TYPES self)) ->
             exists docs w,
               load_loop communicate json_loads self fuel types docs0
                 = (Ok docs, w)).
  { induction types as [|pt types IH]; intros docs0 Hin; simpl.
    - now eexists _, _.
    - destruct (Hok pt) as [found [Hl Hf]]; [apply Hin; now left|].
      unfold list_plugins in Hl.
      destruct (_run_ansible_doc_list communicate json_loads self pt)
        as [r1 w1] eqn:E1.
      simpl in Hl. subst r1.
      assert (IH' : forall docs1, exists docs w,
                   load_loop communicate json_loads self fuel types docs1
                     = (Ok docs, w)).
      { intros docs1. apply IH. intros pt' Hpt'. apply Hin. now right. }
      destruct (sorted (Dict.keys found)) as [|p ps] eqn:Hs.
      + destruct (IH' docs0) as [docs [w H]].
        eexists _, _.
        eapply bind_Ok; [reflexivity|].
        eapply bind_Ok; [reflexivity|].
        cbv beta. rewrite Hs. exact H.
      + destruct Hf as [payloads [Hp Hpay]].
        { intros ->. discriminate. }
        unfold fetch_docs in Hp.
        destruct (_run_ansible_doc communicate json_loads self pt (p :: ps))
          as [r2 w2] eqn:E2.
        simpl in Hp. subst r2.
        destruct (process_items_returns fuel payloads Hpay []) as [pr [w3 H3]].
        destruct (IH' (Dict.set pt (JDict pr) docs0)) as [docs [w H]].
        eexists _, _.
        eapply bind_Ok; [reflexivity|].
        eapply bind_Ok; [reflexivity|].
        cbv beta. rewrite Hs.
        eapply bind_Ok; [exact E2|].
        eapply bind_Ok; [|exact H].
        unfold _process_doc_strings.
        eapply bind_Ok; [reflexivity|exact H3]. }
  destruct (Hloop (effective_plugin_types ANSIBLE_DOC_SUPPORTED_TYPES self) [])
    as [docs [w H]]; auto.
  eexists _, _. eapply bind_Ok; [reflexivity|exact H].
Qed.

(** C9: in the result of [load], a plugin type whose plugin list is empty
    has no entry; and, the tool being there, for a plugin type of the loader
    whose plugin list is not empty the docs are fetched for the sorted list
    of its plugin identifiers, every payload returned is normalized, and the
    normalized payloads are stored under the plugin type. *)
Theorem load_skips_empty_types_and_normalizes
  (fuel : nat) (docs : dict) (w : list event) (pt : string) :
  load which communicate json_loads ANSIBLE_DOC_SUPPORTED_TYPES self fuel
    = (Ok docs, w) ->
  (list_plugins communicate json_loads self pt = Ok (JDict []) ->
   Dict.get pt docs = None) /\
  (ansible_doc_missing which = false ->
   In pt (effective_plugin_types ANSIBLE_DOC_SUPPORTED_TYPES self) ->
   forall found,
     list_plugins communicate json_loads self pt = Ok (JDict found) ->
     found <> [] ->
     In (Popen (doc_cmd self pt (sorted (Dict.keys found)))
               (_collections_path self)) w /\
     exists payloads outs,
       fetch_docs communicate json_loads self pt (sorted (Dict.keys found))
         = Ok (JDict payloads) /\
       Forall2
         (fun kv out => fst (_transform_doc_strings fuel (snd kv)) = Ok out)
         payloads outs /\
       Dict.get pt docs =
         Some (JDict (Dict.merge [] (combine (Dict.keys payloads) outs)))).
Proof.
  unfold load. intros H.
  apply bind_Ok_inv in H. destruct H as [u [w1 [w2 [Hemit [H ->]]]]].
  destruct (ansible_doc_missing which) eqn:Hmiss.
  - apply bind_Ok_inv in H. destruct H as [u' [w3 [w4 [_ [H _]]]]].
    inversion H; subst docs. split; [reflexivity|discriminate].
  - destruct (load_loop_Ok _ _ _ _ _ H pt) as [L1 [_ L3]]. split.
    + intros Hl. now rewrite L1.
    + intros _ Hin found Hf Hne.
      destruct (L3 found Hin Hf Hne) as [Hev Hrest].
      split; auto. apply in_or_app. now right.
Qed.

End LoaderFacts.

Lemma load_skips_empty_types_and_normalizes_witness :
  let load_example :=
    load example_which example_communicate example_json_loads []
         example_loader 2 in
  let found := [("ns.col.ping", JStr "Ping"); ("ns.col.copy", JStr "Copy")] in
  exists docs w,
    load_example = (Ok docs, w) /\
    Dict.keys docs = ["module"] /\
    In (Popen (doc_cmd example_loader "module" ["ns.col.copy"; "ns.col.ping"])
              "/tmp") w /\
    exists payloads outs,
      fetch_docs example_communicate example_json_loads example_loader
        "module" (sorted (Dict.keys found)) = Ok (JDict payloads) /\
      Forall2
        (fun kv out => fst (_transform_doc_strings 2 (snd kv)) = Ok out)
        payloads outs /\
      Dict.get "module" docs =
        Some (JDict (Dict.merge [] (combine (Dict.keys payloads) outs))).
Proof.
  cbv zeta. eexists _, _. split; [reflexivity|]. split; [reflexivity|].
  refine (proj2 (load_skips_empty_types_and_normalizes
                   example_which example_communicate example_json_loads []
                   example_loader 2 _ _ "module" eq_refl)
                eq_refl _
                [("ns.col.ping", JStr "Ping"); ("ns.col.copy", JStr "Copy")]
                eq_refl _).
  - right. now left.
  - discriminate.
Defined.

(** * Further properties of the normalizer *)

Lemma merge_name_in_order fields :
  forall acc x,
    NoDup (Dict.keys fields) ->
    (forall k, In k (Dict.keys fields) -> ~ In k (Dict.keys acc)) ->
    ~ In "name" (Dict.keys acc) ->
    Dict.merge (("name", x) :: acc) fields =
      ("name", match Dict.get "name" fields with Some y => y | None => x end)
        :: acc ++ filter (fun kv => negb (String.eqb (fst kv) "name")) fields.
Proof.
  unfold Dict.merge.
  induction fields as [|[k v] fields IH]; intros acc x Hnd Hfresh Hname.
  - simpl. now rewrite app_nil_r.
  - inversion Hnd as [|? ? Hk Hnd']; subst.
    cbn [fold_left fst snd Dict.set Dict.get filter].
    destruct (String.eqb k "name") eqn:E.
    + apply String.eqb_eq in E. subst k.
      cbn [String.eqb Ascii.eqb Bool.eqb negb].
      rewrite IH; auto.
      * destruct (Dict.get "name" fields) eqn:G; auto.
        exfalso. apply Hk. apply DictFacts.get_some_in in G.
        change "name" with (fst ("name", j)). now apply in_map.
      * intros k Hin. apply Hfresh. now right.
    + assert (E' : String.eqb "name" k = false)
        by (now rewrite String.eqb_sym).
      rewrite E'. cbn [negb].
      assert (Hset : Dict.set k v acc = acc ++ [(k, v)]).
      { assert (Hkacc : ~ In k (Dict.keys acc)) by (apply Hfresh; now left).
        clear - Hkacc. induction acc as [|[k' v'] acc IHa]; simpl; auto.
        destruct (String.eqb k k') eqn:Ek.
        - apply String.eqb_eq in Ek. subst. exfalso. apply Hkacc. now left.
        - f_equal. apply IHa. intros Hin. apply Hkacc. now right. }
      rewrite Hset, IH; auto.
      * now rewrite <- app_assoc.
      * intros k' Hin Hin'. unfold Dict.keys in Hin'.
        rewrite map_app in Hin'. apply in_app_or in Hin'.
        destruct Hin' as [Hin'|[<-|[]]]; [|contradiction].
        apply (Hfresh k'); auto. now right.
      * unfold Dict.keys. rewrite map_app. intros Hin.
        apply in_app_or in Hin. destruct Hin as [Hin|[Hin|[]]]; auto.
        simpl in Hin. subst k. now rewrite String.eqb_refl in E.
Qed.

(** The fields of a record are in the order of the value's fields: ["name"]
    first, then the fields of the value other than ["name"], as they come. *)
Theorem record_keeps_field_order (m : dict) (i : nat) (k : string) :
  wf_dict m = true ->
  all_mappings m = true ->
  nth_error (Dict.keys m) i = Some k ->
  exists fields rows,
    Dict.get k m = Some (JDict fields) /\
    dict_to_named_list m = (Ok rows, []) /\
    nth_error rows i = Some (record_in_order k fields).
Proof.
  intros Hwf Hall Hk.
  destruct (all_mappings_get m k Hall) as [fields G].
  { eapply nth_error_In; eauto. }
  exists fields, (map (record_of m) (Dict.keys m)).
  split; [exact G|]. split.
  - rewrite dict_to_named_list_eq. now rewrite Hall.
  - rewrite nth_error_map, Hk. simpl. f_equal.
    rewrite (record_of_get _ _ _ G). unfold record_in_order.
    rewrite (merge_name_in_order fields [] (JStr k)); auto.
    apply wf_dict_keys. exact (wf_dict_get _ _ _ Hwf G).
Qed.

Lemma record_keeps_field_order_witness :
  let m := [("state", JDict [("type", JStr "str"); ("name", JStr "own");
                             ("default", JNull)])] in
  wf_dict m = true /\
  all_mappings m = true /\
  nth_error (Dict.keys m) 0 = Some "state" /\
  exists fields rows,
    Dict.get "state" m = Some (JDict fields) /\
    dict_to_named_list m = (Ok rows, []) /\
    nth_error rows 0 = Some (record_in_order "state" fields).
Proof.
  cbv zeta. repeat (split; [reflexivity|]).
  apply record_keeps_field_order; reflexivity.
Defined.

(** After the first step ["doc"] has no table under ["options"]. *)
Lemma transform_options_no_table fuel data data1 w :
  transform_options fuel data = (Ok data1, w) ->
  has_options_table data1 = false.
Proof.
  intros H. apply transform_options_Ok in H. unfold has_options_table.
  destruct (Dict.get "doc" data) as [v|] eqn:G.
  2:{ subst. now rewrite G. }
  destruct v; try contradiction.
  destruct (Dict.get "options" d) as [o|] eqn:Go.
  2:{ subst. rewrite G. unfold is_mapping_at. now rewrite Go. }
  destruct o;
    try (subst; rewrite G; unfold is_mapping_at; now rewrite Go).
  destruct H as [rows [-> _]].
  rewrite DictFacts.get_set_same. unfold is_mapping_at.
  now rewrite DictFacts.get_set_same.
Qed.

Lemma transform_without_tables fuel data :
  doc_absent_or_mapping data = true ->
  has_options_table data = false ->
  nonempty_mapping (Dict.get "return" data) = false ->
  _transform_doc_strings fuel (JDict data) = (Ok (JDict data), []).
Proof.
  unfold doc_absent_or_mapping, has_options_table, is_mapping_at.
  intros Hdoc Hopt Hret. unfold _transform_doc_strings.
  apply (bind_Ok _ _ data [] _ []).
  - rewrite transform_options_eq.
    destruct (Dict.get "doc" data) as [v|]; auto.
    destruct v; try discriminate.
    destruct (Dict.get "options" d) as [o|]; auto.
    destruct o; auto. discriminate.
  - apply (bind_Ok _ _ data [] _ []); auto.
    now apply transform_return_untouched.
Qed.

(** The normalizer is the identity, and logs nothing, on a payload with no
    table to convert: ["doc"] absent or a mapping whose ["options"] is not a
    mapping, and ["return"] not a non-empty mapping. No fuel is needed. *)
Theorem normalizer_identity_without_tables (fuel : nat) (data : dict) :
  doc_absent_or_mapping data = true ->
  has_options_table data = false ->
  nonempty_mapping (Dict.get "return" data) = false ->
  _transform_doc_strings fuel (JDict data) = (Ok (JDict data), []).
Proof.
  intros Hdoc Hopt Hret. unfold _transform_doc_strings.
  apply (bind_Ok _ _ data [] _ []).
  - rewrite transform_options_eq.
    unfold doc_absent_or_mapping in Hdoc.
    unfold has_options_table, is_mapping_at in Hopt.
    destruct (Dict.get "doc" data) as [v|]; auto.
    destruct v; try discriminate.
    destruct (Dict.get "options" d) as [o|]; auto.
    destruct o; auto. discriminate.
  - rewrite (transform_return_untouched fuel data Hret). reflexivity.
Qed.

Lemma normalizer_identity_without_tables_witness :
  let data := [("doc", JDict [("options", JList [JStr "a"])]);
               ("return", JDict []); ("metadata", JNull)] in
  doc_absent_or_mapping data = true /\
  has_options_table data = false /\
  nonempty_mapping (Dict.get "return" data) = false /\
  _transform_doc_strings 0 (JDict data) = (Ok (JDict data), []).
Proof.
  cbv zeta. repeat (split; [reflexivity|]).
  apply normalizer_identity_without_tables; reflexivity.
Defined.

(** The normalizer is idempotent: applied to a payload it has returned, it
    returns that payload again and logs nothing. *)
Theorem normalizer_idempotent
  (fuel fuel' : nat) (data out : json) (w : list event) :
  _transform_doc_strings fuel data = (Ok out, w) ->
  _transform_doc_strings fuel' out = (Ok out, []).
Proof.
  destruct data; try discriminate.
  unfold _transform_doc_strings at 1. intros H.
  apply bind_Ok_inv in H. destruct H as [data1 [w1 [w2 [H1 [H _]]]]].
  apply bind_Ok_inv in H. destruct H as [data2 [w3 [w4 [H2 [H _]]]]].
  inversion H; subst out.
  pose proof (transform_options_no_table _ _ _ _ H1) as Hno.
  pose proof (transform_options_frame _ _ _ _ H1) as [_ Hdoc1].
  pose proof (transform_return_frame _ _ _ _ H2) as [[_ F2] _].
  pose proof (transform_return_Ok _ _ _ _ H2) as R2.
  assert (Edoc : Dict.get "doc" data2 = Dict.get "doc" data1)
    by (apply F2; discriminate).
  apply transform_without_tables.
  - unfold doc_absent_or_mapping. rewrite Edoc.
    destruct (Dict.get "doc" d) as [v|].
    + destruct v; try contradiction.
      destruct Hdoc1 as [doc' [-> _]]. reflexivity.
    + now rewrite Hdoc1.
  - unfold has_options_table in *. now rewrite Edoc.
  - destruct (Dict.get "return" data1) as [v|] eqn:G.
    2:{ subst. now rewrite G. }
    destruct v; try (subst; now rewrite G).
    destruct d0 as [|e table]; [subst; now rewrite G|].
    destruct R2 as [rows [-> _]]. now rewrite DictFacts.get_set_same.
Qed.

Lemma normalizer_idempotent_witness :
  _transform_doc_strings 2 example_payload = (Ok example_normalized, []) /\
  _transform_doc_strings 0 example_normalized = (Ok example_normalized, []).
Proof.
  split; [reflexivity|].
  exact (normalizer_idempotent 2 0 example_payload example_normalized []
           eq_refl).
Defined.

Lemma return_left_untouched_witness :
  let data := [("doc", JDict [("options", JDict [("o", JDict [])])]);
               ("return", JStr "text")] in
  doc_absent_or_mapping data = true /\
  depth (JDict data) <= 4 /\
  nonempty_mapping (Dict.get "return" data) = false /\
  exists out w,
    _transform_doc_strings 4 (JDict data) = (Ok (JDict out), w) /\
    Dict.get "return" out = Dict.get "return" data.
Proof.
  cbv zeta. split; [reflexivity|]. split; [vm_compute; lia|].
  split; [reflexivity|].
  apply return_left_untouched; [reflexivity|vm_compute; lia|reflexivity].
Defined.

(** Events of a computation, through [bind] and [mapM]. *)
Lemma bind_events {A B} (P : event -> Prop) (m : M A) (f : A -> M B) :
  Forall P (snd m) ->
  (forall a, Forall P (snd (f a))) ->
  Forall P (snd (bind m f)).
Proof.
  intros Hm Hf. unfold bind. destruct m as [[a|e|] w]; simpl in *; auto.
  specialize (Hf a). destruct (f a) as [r w']. simpl in *.
  apply Forall_app. now split.
Qed.

Lemma mapM_events {A B} (P : event -> Prop) (f : A -> M B) l :
  (forall x, Forall P (snd (f x))) ->
  Forall P (snd (mapM f l)).
Proof.
  intros Hf. induction l as [|x l IH]; cbn [mapM]; [constructor|].
  apply bind_events; [apply Hf|]. intros y.
  apply bind_events; [exact IH|]. intros ys. constructor.
Qed.

Lemma dict_to_named_list_events d :
  Forall (fun e => warns_of_bad_table e = true) (snd (dict_to_named_list d)).
Proof.
  rewrite dict_to_named_list_eq.
  destruct (all_mappings d) eqn:Hall; simpl; constructor; auto.
  simpl. now rewrite Hall.
Qed.

Lemma handle_nested_tables_events fuel :
  forall obj table_key,
    Forall (fun e => warns_of_bad_table e = true)
           (snd (handle_nested_tables fuel obj table_key)).
Proof.
  induction fuel as [|fuel IH]; intros obj tk; cbn [handle_nested_tables];
    [constructor|].
  destruct (Dict.get tk obj) as [v|]; [|constructor].
  destruct v; try constructor.
  apply bind_events; [apply dict_to_named_list_events|]. intros rows.
  apply bind_events; [apply mapM_events; intros r; apply IH|].
  intros rows'. constructor.
Qed.

Lemma transform_doc_strings_events fuel data :
  Forall (fun e => warns_of_bad_table e = true)
         (snd (_transform_doc_strings fuel data)).
Proof.
  destruct data; try constructor.
  unfold _transform_doc_strings.
  apply bind_events.
  - rewrite transform_options_eq.
    destruct (Dict.get "doc" d) as [v|]; [|constructor].
    destruct v; try constructor.
    destruct (Dict.get "options" d0) as [o|]; [|constructor].
    destruct o; try constructor.
    apply bind_events; [apply dict_to_named_list_events|]. intros rows.
    apply bind_events;
      [apply mapM_events; intros r; apply handle_nested_tables_events|].
    intros rows'. constructor.
  - intros data1. apply bind_events; [|intros; constructor].
    rewrite transform_return_eq.
    destruct (Dict.get "return" data1) as [v|]; [|constructor].
    destruct v; try constructor.
    destruct d0 as [|e table]; [constructor|].
    apply bind_events; [apply dict_to_named_list_events|]. intros rows.
    apply bind_events;
      [apply mapM_events; intros r; apply handle_nested_tables_events|].
    intros rows'. constructor.
Qed.

(** Whatever the payload and the outcome, the normalizer logs nothing but
    the warning of [dict_to_named_list], and each time about a table that
    does have a value that is not a mapping. *)
Theorem normalizer_logs_only_bad_tables (fuel : nat) (data : json) :
  Forall (fun e => exists d,
              e = LogWarningNotDictOfDicts d /\ all_mappings d = false)
         (snd (_transform_doc_strings fuel data)).
Proof.
  eapply Forall_impl; [|apply transform_doc_strings_events].
  intros e He. destruct e; try discriminate.
  exists dict_of_dict. split; auto. simpl in He.
  now apply negb_true_iff in He.
Qed.

(** An empty mapping under ["options"] becomes the empty list, while an
    empty mapping under ["return"] stays as it is: only the second test
    asks for a non-empty value. *)
Theorem empty_options_converted_empty_return_kept
  (fuel : nat) (data doc : dict) :
  Dict.get "doc" data = Some (JDict doc) ->
  Dict.get "options" doc = Some (JDict []) ->
  Dict.get "return" data = Some (JDict []) ->
  exists out doc',
    _transform_doc_strings fuel (JDict data) = (Ok (JDict out), []) /\
    Dict.get "doc" out = Some (JDict doc') /\
    Dict.get "options" doc' = Some (JList []) /\
    Dict.get "return" out = Some (JDict []).
Proof.
  intros Gd Go Gr.
  set (data1 := Dict.set "doc" (JDict (Dict.set "options" (JList []) doc)) data).
  assert (Gr1 : Dict.get "return" data1 = Some (JDict [])).
  { unfold data1. rewrite DictFacts.get_set_other; auto. discriminate. }
  exists data1, (Dict.set "options" (JList []) doc).
  split; [|split; [|split]]; auto.
  - unfold _transform_doc_strings.
    apply (bind_Ok _ _ data1 [] _ []).
    + rewrite transform_options_eq, Gd, Go. reflexivity.
    + apply (bind_Ok _ _ data1 [] _ []); auto.
      apply transform_return_untouched. now rewrite Gr1.
  - apply DictFacts.get_set_same.
  - apply DictFacts.get_set_same.
Qed.

Lemma empty_options_converted_empty_return_kept_witness :
  let doc := [("module", JStr "ping"); ("options", JDict [])] in
  let data := [("doc", JDict doc); ("return", JDict [])] in
  Dict.get "doc" data = Some (JDict doc) /\
  Dict.get "options" doc = Some (JDict []) /\
  Dict.get "return" data = Some (JDict []) /\
  exists out doc',
    _transform_doc_strings 0 (JDict data) = (Ok (JDict out), []) /\
    Dict.get "doc" out = Some (JDict doc') /\
    Dict.get "options" doc' = Some (JList []) /\
    Dict.get "return" out = Some (JDict []).
Proof.
  cbv zeta. repeat (split; [reflexivity|]).
  apply (empty_options_converted_empty_return_kept 0 _
           [("module", JStr "ping"); ("options", JDict [])]); reflexivity.
Defined.

(** * Paths and plugin names *)

Lemma split_slash_nonempty s : split_slash s <> [].
Proof.
  destruct s as [|c s]; simpl; [discriminate|].
  destruct (Ascii.eqb c "/"); [discriminate|].
  destruct (split_slash s); discriminate.
Qed.

Lemma split_slash_no_slash s : no_slash s = true -> split_slash s = [s].
Proof.
  induction s as [|c s IH]; simpl; auto.
  rewrite andb_true_iff, negb_true_iff. intros [Hc Hs].
  now rewrite Hc, IH.
Qed.

Lemma split_slash_app s t :
  split_slash (s ++ String "/" t) = split_slash s ++ split_slash t.
Proof.
  induction s as [|c s IH]; simpl; auto.
  destruct (Ascii.eqb c "/"); [now rewrite IH|].
  rewrite IH. pose proof (split_slash_nonempty s) as Hne.
  destruct (split_slash s); [contradiction|reflexivity].
Qed.

(** Joining the parts of a split gives the string back. *)
Lemma concat_split_slash s : String.concat "/" (split_slash s) = s.
Proof.
  induction s as [|c s IH]; simpl; auto.
  destruct (Ascii.eqb c "/") eqn:E.
  - apply Ascii.eqb_eq in E. subst c.
    pose proof (split_slash_nonempty s) as Hne.
    destruct (split_slash s) as [|h tl] eqn:Hs; [contradiction|].
    simpl in *. now rewrite IH.
  - pose proof (split_slash_nonempty s) as Hne.
    destruct (split_slash s) as [|h tl] eqn:Hs; [contradiction|].
    destruct tl; simpl in *; now rewrite <- IH.
Qed.

Lemma length_split_slash s : List.length (split_slash s) = S (count_slash s).
Proof.
  induction s as [|c s IH]; simpl; auto.
  destruct (Ascii.eqb c "/"); simpl; [now rewrite IH|].
  pose proof (split_slash_nonempty s) as Hne.
  destruct (split_slash s) as [|h tl]; [contradiction|].
  simpl in *. lia.
Qed.

(** [_collections_path] drops the last three components of the path: for
    [base/a/b/c] with no slash in [a], [b] and [c] it is [base]. *)
Theorem collections_path_drops_three_components
  (self : DocStringLoader) (base a b c : string) :
  no_slash a = true -> no_slash b = true -> no_slash c = true ->
  path self = (base ++ String "/" (a ++ String "/" (b ++ String "/" c)))%string ->
  _collections_path self = base.
Proof.
  intros Ha Hb Hc Hp. unfold _collections_path, drop_last3. rewrite Hp.
  rewrite split_slash_app, split_slash_app, split_slash_app.
  rewrite (split_slash_no_slash a Ha), (split_slash_no_slash b Hb),
    (split_slash_no_slash c Hc).
  rewrite length_app. simpl.
  replace (List.length (split_slash base) + 3 - 3)
    with (List.length (split_slash base) + 0) by lia.
  rewrite firstn_app_2. simpl. rewrite app_nil_r.
  apply concat_split_slash.
Qed.

Lemma collections_path_drops_three_components_witness :
  no_slash "ansible_collections" = true /\
  no_slash "ns" = true /\
  no_slash "col" = true /\
  path example_loader = "/tmp/ansible_collections/ns/col" /\
  _collections_path example_loader = "/tmp".
Proof.
  repeat (split; [reflexivity|]).
  now apply (collections_path_drops_three_components example_loader
               "/tmp" "ansible_collections" "ns" "col").
Defined.

(** With fewer than three slashes in the path there is nothing left:
    [_collections_path] is the empty string. *)
Theorem collections_path_of_short_path (self : DocStringLoader) :
  count_slash (path self) <= 2 ->
  _collections_path self = "".
Proof.
  intros H. unfold _collections_path, drop_last3.
  rewrite length_split_slash.
  replace (S (count_slash (path self)) - 3) with 0 by lia.
  reflexivity.
Qed.

Lemma collections_path_of_short_path_witness :
  let self := {| path := "ns/col"; fq_collection_name := "ns.col";
                 cfg_ansible_local_tmp := ""; plugin_types := None;
                 module_path := None |} in
  count_slash (path self) <= 2 /\ _collections_path self = "".
Proof.
  cbv zeta. split; [simpl; lia|].
  apply collections_path_of_short_path. simpl. lia.
Defined.

Lemma string_app_assoc (s t u : string) :
  ((s ++ t) ++ u = s ++ (t ++ u))%string.
Proof. induction s as [|c s IH]; simpl; auto. now rewrite IH. Qed.

Lemma string_length_app (s t : string) :
  String.length (s ++ t) = String.length s + String.length t.
Proof. induction s as [|c s IH]; simpl; auto. Qed.

Lemma substring_0_app (s t : string) :
  substring 0 (String.length s) (s ++ t) = s.
Proof.
  induction s as [|c s IH]; simpl.
  - now destruct t.
  - now rewrite IH.
Qed.

Lemma drop_last3_chars_py stem : drop_last3_chars (stem ++ ".py") = stem.
Proof.
  unfold drop_last3_chars. rewrite string_length_app. simpl.
  replace (String.length stem + 3 - 3) with (String.length stem) by lia.
  apply substring_0_app.
Qed.

Lemma endswith_app s suffix : endswith (s ++ suffix) suffix = true.
Proof.
  induction s as [|c s IH]; cbn [endswith String.append].
  - destruct suffix; cbn [endswith]; now rewrite String.eqb_refl.
  - rewrite IH. apply orb_true_r.
Qed.

Lemma endswith_inv s suffix :
  endswith s suffix = true -> exists s', s = (s' ++ suffix)%string.
Proof.
  induction s as [|c s IH]; cbn [endswith]; rewrite orb_true_iff.
  - intros [H|H]; [|discriminate].
    apply String.eqb_eq in H. subst. now exists "".
  - intros [H|H].
    + apply String.eqb_eq in H. now exists "".
    + destruct (IH H) as [s' ->]. now exists (String c s').
Qed.

(** The base name of a file joined to its directory is the file name. *)
Lemma basename_join root filename :
  no_slash filename = true ->
  os_path_basename (os_path_join root filename) = filename.
Proof.
  intros Hf. unfold os_path_basename, os_path_join.
  assert (Hstart : match filename with
                   | String c _ => Ascii.eqb c "/"%char
                   | EmptyString => false
                   end = false).
  { destruct filename; auto. simpl in Hf.
    apply andb_true_iff in Hf. destruct Hf as [Hc _].
    now apply negb_true_iff in Hc. }
  rewrite Hstart.
  destruct (String.eqb root "") eqn:E; simpl.
  - apply String.eqb_eq in E. subst. simpl.
    now rewrite split_slash_no_slash.
  - destruct (endswith root "/") eqn:Es.
    + apply endswith_inv in Es. destruct Es as [r ->].
      rewrite string_app_assoc. simpl.
      rewrite split_slash_app, (split_slash_no_slash filename Hf).
      apply last_last.
    + rewrite split_slash_app, (split_slash_no_slash filename Hf).
      apply last_last.
Qed.

Lemma split_slash_concat dirs :
  dirs <> [] ->
  Forall (fun d => no_slash d = true) dirs ->
  split_slash (String.concat "/" dirs) = dirs.
Proof.
  induction dirs as [|d dirs IH]; intros Hne Hall; [contradiction|].
  inversion Hall; subst.
  destruct dirs as [|d2 dirs].
  - simpl. now apply split_slash_no_slash.
  - change (String.concat "/" (d :: d2 :: dirs))
      with (d ++ String "/" (String.concat "/" (d2 :: dirs)))%string.
    rewrite split_slash_app, (split_slash_no_slash d) by assumption.
    rewrite IH; auto. discriminate.
Qed.

Section PluginsFacts.

Variable os_walk : string -> list (string * list string).
Variable os_path_relpath : string -> string -> string.
Variable self : DocStringLoader.

(** The name of [stem.py] found in the sub-directory [d1/.../dn] of the
    plugin directory is [fq_collection_name.d1. ... .dn.stem]: the slashes
    of the relative path become dots, and neither the root nor the [.py]
    are part of it. *)
Theorem plugin_name_in_subdirectory
  (plugin_dir root stem : string) (dirs : list string) :
  no_slash stem = true ->
  dirs <> [] ->
  Forall (fun d => no_slash d = true) dirs ->
  os_path_relpath root plugin_dir = String.concat "/" dirs ->
  String.concat "/" dirs <> "" ->
  String.concat "/" dirs <> "." ->
  plugin_fq_name os_path_relpath self plugin_dir root (stem ++ ".py")
    = String.concat "." (fq_collection_name self :: dirs ++ [stem]).
Proof.
  intros Hstem Hne Hdirs Hrel Hn1 Hn2. unfold plugin_fq_name.
  rewrite Hrel.
  apply String.eqb_neq in Hn1. apply String.eqb_neq in Hn2.
  rewrite Hn1, Hn2. cbn [negb andb].
  rewrite split_slash_concat by assumption.
  rewrite basename_join.
  - now rewrite drop_last3_chars_py.
  - clear - Hstem. induction stem as [|c stem IH]; simpl in *; auto.
    apply andb_true_iff in Hstem. destruct Hstem as [-> Hs]. simpl. auto.
Qed.

(** The name of [stem.py] found in the plugin directory itself, whose
    relative path is ["."], is [fq_collection_name.stem]. *)
Theorem plugin_name_at_top (plugin_dir root stem : string) :
  no_slash stem = true ->
  os_path_relpath root plugin_dir = "." ->
  plugin_fq_name os_path_relpath self plugin_dir root (stem ++ ".py")
    = (fq_collection_name self ++ "." ++ stem)%string.
Proof.
  intros Hstem Hrel. unfold plugin_fq_name. rewrite Hrel.
  cbn [String.eqb Ascii.eqb Bool.eqb negb andb app String.concat].
  rewrite basename_join.
  - now rewrite drop_last3_chars_py.
  - clear - Hstem. induction stem as [|c stem IH]; simpl in *; auto.
    apply andb_true_iff in Hstem. destruct Hstem as [-> Hs]. simpl. auto.
Qed.

(** Every name [_get_plugins] returns is fully qualified: it starts with
    the collection name and a dot. *)
Theorem get_plugins_names_are_qualified (plugin_dir name : string) :
  In name (_get_plugins os_walk os_path_relpath self plugin_dir) ->
  exists rest, name = (fq_collection_name self ++ "." ++ rest)%string.
Proof.
  unfold _get_plugins. intros H.
  apply in_flat_map in H. destruct H as [[root files] [_ H]].
  apply in_flat_map in H. destruct H as [filename [_ H]].
  destruct (negb (endswith filename ".py") || String.eqb filename "__init__.py");
    [contradiction|].
  destruct H as [<-|[]]. unfold plugin_fq_name. cbn [fst].
  set (last_part := drop_last3_chars _).
  destruct (negb _ && negb _).
  - pose proof (split_slash_nonempty (os_path_relpath root plugin_dir)) as Hne.
    destruct (split_slash (os_path_relpath root plugin_dir)) as [|h tl];
      [contradiction|].
    eexists. cbn [app String.concat]. reflexivity.
  - eexists. cbn [app String.concat]. reflexivity.
Qed.

End PluginsFacts.

(** The example of the docstring of [_get_plugins]. *)
Example get_plugins_docstring_example :
  _get_plugins example_walk example_relpath example_gcp_loader "plugins/modules"
  = ["google.gcp.service_facts"; "google.gcp.storage.subdir2.gc_storage"].
Proof. reflexivity. Qed.

Lemma plugin_name_in_subdirectory_witness :
  no_slash "gc_storage" = true /\
  ["storage"; "subdir2"] <> [] /\
  Forall (fun d => no_slash d = true) ["storage"; "subdir2"] /\
  example_relpath "plugins/modules/storage/subdir2" "plugins/modules"
    = String.concat "/" ["storage"; "subdir2"] /\
  plugin_fq_name example_relpath example_gcp_loader "plugins/modules"
    "plugins/modules/storage/subdir2" "gc_storage.py"
    = "google.gcp.storage.subdir2.gc_storage".
Proof.
  split; [reflexivity|]. split; [discriminate|].
  split; [repeat constructor|]. split; [reflexivity|].
  apply (plugin_name_in_subdirectory example_relpath example_gcp_loader
           "plugins/modules" "plugins/modules/storage/subdir2" "gc_storage"
           ["storage"; "subdir2"]);
    try reflexivity; try discriminate; repeat constructor.
Defined.

Lemma plugin_name_at_top_witness :
  no_slash "service_facts" = true /\
  example_relpath "plugins/modules" "plugins/modules" = "." /\
  plugin_fq_name example_relpath example_gcp_loader "plugins/modules"
    "plugins/modules" "service_facts.py"
    = "google.gcp.service_facts".
Proof.
  split; [reflexivity|]. split; [reflexivity|].
  now apply (plugin_name_at_top example_relpath example_gcp_loader
               "plugins/modules" "plugins/modules" "service_facts").
Defined.

Lemma get_plugins_names_are_qualified_witness :
  In "google.gcp.service_facts"
     (_get_plugins example_walk example_relpath example_gcp_loader
        "plugins/modules") /\
  exists rest, "google.gcp.service_facts" = ("google.gcp" ++ "." ++ rest)%string.
Proof.
  split; [now left|].
  apply (get_plugins_names_are_qualified example_walk example_relpath
           example_gcp_loader "plugins/modules").
  now left.
Defined.

(** * Further properties of [load] *)

Lemma transform_doc_strings_outcome fuel v :
  depth v <= fuel ->
  if payload_ok v
  then exists out w, _transform_doc_strings fuel v = (Ok out, w)
  else _transform_doc_strings fuel v = (Raise AttributeError, []).
Proof.
  intros Hd. destruct v; try reflexivity. simpl.
  destruct (doc_absent_or_mapping d) eqn:Hdoc.
  - destruct (transform_doc_strings_returns fuel d Hdoc Hd) as [out [w H]].
    eauto.
  - unfold doc_absent_or_mapping in Hdoc. unfold _transform_doc_strings.
    destruct (Dict.get "doc" d) as [v|] eqn:G; [|discriminate].
    now rewrite (transform_options_raises fuel d v G Hdoc).
Qed.

Lemma keys_combine {A} (R : string * json -> A -> Prop) items (outs : list A) :
  Forall2 R items outs ->
  map fst (combine (Dict.keys items) outs) = Dict.keys items.
Proof.
  induction 1 as [|[k v] o items outs _ _ IH]; simpl; auto.
  now rewrite IH.
Qed.

(** One malformed payload loses the batch: when some payload is not a
    mapping, or has a ["doc"] that is not a mapping, [_process_doc_strings]
    raises [AttributeError] and returns nothing, whatever the others are. *)
Theorem process_doc_strings_raises_on_bad_payload (fuel : nat) (items : dict) :
  (forall k v, In (k, v) items -> depth v <= fuel) ->
  existsb (fun kv => negb (payload_ok (snd kv))) items = true ->
  fst (_process_doc_strings fuel (JDict items)) = Raise AttributeError.
Proof.
  unfold _process_doc_strings, py_items. rewrite bind_ret_l.
  generalize (@nil (string * json)) as acc.
  induction items as [|[k v] items IH]; intros acc Hd Hbad; [discriminate|].
  cbn [existsb snd] in Hbad. cbn [process_items].
  pose proof (transform_doc_strings_outcome fuel v (Hd k v (or_introl eq_refl)))
    as Hv.
  destruct (payload_ok v).
  - destruct Hv as [out [w Hv]]. rewrite Hv. cbn [bind negb orb] in *.
    specialize (IH (Dict.set k out acc)
                   (fun k' v' Hin => Hd k' v' (or_intror Hin)) Hbad).
    destruct (process_items fuel items (Dict.set k out acc)) as [r w'].
    exact IH.
  - now rewrite Hv.
Qed.

Lemma process_doc_strings_raises_on_bad_payload_witness :
  let items := [("ns.col.ping", JDict [("doc", JDict [])]);
                ("ns.col.copy", JDict [("doc", JNull)])] in
  (forall k v, In (k, v) items -> depth v <= 2) /\
  existsb (fun kv => negb (payload_ok (snd kv))) items = true /\
  fst (_process_doc_strings 2 (JDict items)) = Raise AttributeError.
Proof.
  cbv zeta.
  assert (Hd : forall k v,
             In (k, v) [("ns.col.ping", JDict [("doc", JDict [])]);
                        ("ns.col.copy", JDict [("doc", JNull)])] ->
             depth v <= 2).
  { intros k v [H|[H|[]]]; inversion H; subst; simpl; lia. }
  split; [exact Hd|]. split; [reflexivity|].
  now apply process_doc_strings_raises_on_bad_payload.
Defined.

(** [_process_doc_strings] keeps the plugin keys and their order, and stores
    under each key the normalized payload of that key. *)
Theorem process_doc_strings_keeps_keys
  (fuel : nat) (items processed : dict) (w : list event) :
  NoDup (Dict.keys items) ->
  _process_doc_strings fuel (JDict items) = (Ok processed, w) ->
  Dict.keys processed = Dict.keys items /\
  forall k v,
    Dict.get k items = Some v ->
    exists v',
      Dict.get k processed = Some v' /\
      fst (_transform_doc_strings fuel v) = Ok v'.
Proof.
  intros Hnd H. unfold _process_doc_strings, py_items in H.
  rewrite bind_ret_l in H.
  apply process_items_Ok in H. destruct H as [outs [HF ->]].
  pose proof (keys_combine _ _ _ HF) as Hkeys.
  rewrite DictFacts.merge_app_fresh.
  - split; [exact Hkeys|]. simpl.
    clear Hnd Hkeys. induction HF as [|[k0 v0] o items outs Ho _ IH].
    + intros k v Hg. discriminate.
    + intros k v Hg. simpl in *.
      destruct (String.eqb k k0); eauto.
      inversion Hg; subst. eauto.
  - unfold Dict.keys at 1. now rewrite Hkeys.
  - intros k _ [].
Qed.

Lemma process_doc_strings_keeps_keys_witness :
  let items := [("ns.col.copy", example_payload);
                ("ns.col.ping", JDict [("return", JNull)])] in
  exists processed w,
    NoDup (Dict.keys items) /\
    _process_doc_strings 2 (JDict items) = (Ok processed, w) /\
    Dict.keys processed = Dict.keys items /\
    forall k v,
      Dict.get k items = Some v ->
      exists v',
        Dict.get k processed = Some v' /\
        fst (_transform_doc_strings 2 v) = Ok v'.
Proof.
  cbv zeta. eexists _, _.
  assert (Hnd : NoDup (Dict.keys [("ns.col.copy", example_payload);
                                  ("ns.col.ping", JDict [("return", JNull)])])).
  { apply DictFacts.nodupb_NoDup. reflexivity. }
  split; [exact Hnd|]. split; [reflexivity|].
  apply (process_doc_strings_keeps_keys 2 _ _ [] Hnd). reflexivity.
Defined.

Lemma Forall2_functional {A B} (f : A -> result B) l o1 o2 :
  Forall2 (fun x y => f x = Ok y) l o1 ->
  Forall2 (fun x y => f x = Ok y) l o2 ->
  o1 = o2.
Proof.
  intros H. revert o2. induction H as [|x y l o1 Hx _ IH]; intros o2 H2.
  - now inversion H2.
  - inversion H2 as [|? y' ? o2' Hx' H2']; subst.
    rewrite Hx in Hx'. inversion Hx'; subst. f_equal. now apply IH.
Qed.

Section LoaderMoreFacts.

Variable which : string -> option string.
Variable communicate : list string -> string -> Z * string * string.
Variable json_loads : string -> option json.
Variable ANSIBLE_DOC_SUPPORTED_TYPES : list string.
Variable self : DocStringLoader.

(** A command that exits with a non-zero code: the error is logged, the
    output is not decoded and the result is the empty mapping. *)
Lemma run_cmd_failure cmd rc out err :
  communicate cmd (_collections_path self) = (rc, out, err) ->
  rc <> 0%Z ->
  run_cmd communicate json_loads self cmd =
    (Ok (JDict []),
     [LogDebugCmd cmd; Popen cmd (_collections_path self);
      LogErrorAnsibleDoc cmd rc err]).
Proof.
  intros Hc Hrc. unfold run_cmd. rewrite Hc.
  apply Z.eqb_neq in Hrc. rewrite Hrc. reflexivity.
Qed.

Lemma run_cmd_runs_ansible_doc opts :
  In "--json" opts ->
  Forall (runs_ansible_doc self)
    (snd (run_cmd communicate json_loads self (_base_ansible_doc_cmd self ++ opts))).
Proof.
  intros Hj. unfold run_cmd.
  set (cmd := _base_ansible_doc_cmd self ++ opts).
  assert (HP : runs_ansible_doc self (Popen cmd (_collections_path self))).
  { split; auto. exists opts. auto. }
  destruct (communicate cmd (_collections_path self)) as [[rc out] err].
  destruct (negb (Z.eqb rc 0)).
  - simpl. repeat first [apply Forall_nil | apply Forall_cons];
      first [exact HP | exact I].
  - destruct (json_loads out); simpl;
      repeat first [apply Forall_nil | apply Forall_cons];
      first [exact HP | exact I].
Qed.

(** In a run of the loop that returns, every plugin type was listed, the
    listing was a mapping, and its events are among those of the run. *)
Lemma load_loop_listings fuel types :
  forall docs0 docs w,
    load_loop communicate json_loads self fuel types docs0 = (Ok docs, w) ->
    forall pt,
      In pt types ->
      exists found w1,
        _run_ansible_doc_list communicate json_loads self pt
          = (Ok (JDict found), w1) /\
        incl w1 w.
Proof.
  induction types as [|pt0 types IH]; intros docs0 docs w H pt Hin;
    [contradiction|].
  simpl in H.
  apply bind_Ok_inv in H. destruct H as [fp [w1 [w2 [Hfp [H ->]]]]].
  apply bind_Ok_inv in H. destruct H as [ks [w3 [w4 [Hks [H ->]]]]].
  destruct fp; try discriminate.
  unfold py_keys, ret in Hks. inversion Hks; subst ks w3. clear Hks.
  assert (Hrest : exists docs1 w5 w6,
             load_loop communicate json_loads self fuel types docs1
               = (Ok docs, w6) /\ w4 = w5 ++ w6).
  { destruct (sorted (Dict.keys d)).
    - exists docs0, [], w4. auto.
    - apply bind_Ok_inv in H. destruct H as [data [w5 [w6 [_ [H ->]]]]].
      apply bind_Ok_inv in H. destruct H as [data' [w7 [w8 [_ [H ->]]]]].
      eexists _, (w5 ++ w7), w8. split; [exact H|].
      now rewrite app_assoc. }
  destruct Hrest as [docs1 [w5 [w6 [Hloop ->]]]].
  destruct Hin as [<-|Hin].
  - exists d, w1. split; auto. intros e He. apply in_or_app. now left.
  - destruct (IH _ _ _ Hloop pt Hin) as [found [w' [Hl Hincl]]].
    exists found, w'. split; auto.
    intros e He. apply in_or_app. right. simpl.
    apply in_or_app. right. now apply Hincl.
Qed.

(** [load] has an entry for a plugin type only if the tool is there, the
    type is one of the loader's and its plugin list is not empty; the entry
    is then a mapping. *)
Theorem load_entries_are_listed_types
  (fuel : nat) (docs : dict) (w : list event) (pt : string) (v : json) :
  load which communicate json_loads ANSIBLE_DOC_SUPPORTED_TYPES self fuel
    = (Ok docs, w) ->
  Dict.get pt docs = Some v ->
  ansible_doc_missing which = false /\
  In pt (effective_plugin_types ANSIBLE_DOC_SUPPORTED_TYPES self) /\
  exists found payloads,
    list_plugins communicate json_loads self pt = Ok (JDict found) /\
    found <> [] /\
    v = JDict payloads.
Proof.
  unfold load. intros H G.
  apply bind_Ok_inv in H. destruct H as [u [w1 [w2 [_ [H _]]]]].
  destruct (ansible_doc_missing which).
  { apply bind_Ok_inv in H. destruct H as [u' [w3 [w4 [_ [H _]]]]].
    inversion H; subst. discriminate. }
  split; [reflexivity|].
  destruct (load_loop_Ok _ _ _ _ _ _ _ _ H pt) as [L1 [L2 L3]].
  destruct (in_dec string_dec pt
              (effective_plugin_types ANSIBLE_DOC_SUPPORTED_TYPES self))
    as [Hin|Hnin].
  2:{ rewrite L2 in G by assumption. discriminate. }
  split; [exact Hin|].
  destruct (load_loop_listings _ _ _ _ _ H pt Hin) as [found [w' [Hl _]]].
  assert (Hlist : list_plugins communicate json_loads self pt = Ok (JDict found)).
  { unfold list_plugins. now rewrite Hl. }
  destruct found as [|e found].
  { rewrite L1 in G by assumption. discriminate. }
  destruct (L3 _ Hin Hlist) as [_ [payloads [outs [_ [_ Hget]]]]];
    [discriminate|].
  rewrite Hget in G. inversion G.
  eexists _, _. split; [exact Hlist|]. split; [discriminate|reflexivity].
Qed.

(** When the listing of a plugin type exits with a non-zero code, the error
    is logged with the command, the code and the error output, and the type
    has no entry in the result; the other types are still processed. *)
Theorem failed_listing_skips_type
  (fuel : nat) (docs : dict) (w : list event) (pt : string)
  (rc : Z) (out err : string) :
  ansible_doc_missing which = false ->
  In pt (effective_plugin_types ANSIBLE_DOC_SUPPORTED_TYPES self) ->
  communicate (list_cmd self pt) (_collections_path self) = (rc, out, err) ->
  rc <> 0%Z ->
  load which communicate json_loads ANSIBLE_DOC_SUPPORTED_TYPES self fuel
    = (Ok docs, w) ->
  Dict.get pt docs = None /\
  In (LogErrorAnsibleDoc (list_cmd self pt) rc err) w.
Proof.
  intros Hmiss Hin Hc Hrc H. unfold load in H. rewrite Hmiss in H.
  apply bind_Ok_inv in H. destruct H as [u [w1 [w2 [_ [H ->]]]]].
  pose proof (run_cmd_failure _ _ _ _ Hc Hrc) as Hrun.
  destruct (load_loop_Ok _ _ _ _ _ _ _ _ H pt) as [L1 _].
  split.
  - rewrite L1; auto. unfold list_plugins, _run_ansible_doc_list.
    now rewrite Hrun.
  - destruct (load_loop_listings _ _ _ _ _ H pt Hin) as [found [w' [Hl Hincl]]].
    unfold _run_ansible_doc_list in Hl. rewrite Hrun in Hl.
    inversion Hl; subst. apply in_or_app. right. apply Hincl.
    simpl. auto.
Qed.

(** When the listing of a plugin type is not empty but the request for its
    docs exits with a non-zero code, the type does have an entry in the
    result: the empty mapping. *)
Theorem failed_docs_gives_empty_entry
  (fuel : nat) (docs : dict) (w : list event) (pt : string) (found : dict)
  (rc : Z) (out err : string) :
  ansible_doc_missing which = false ->
  In pt (effective_plugin_types ANSIBLE_DOC_SUPPORTED_TYPES self) ->
  list_plugins communicate json_loads self pt = Ok (JDict found) ->
  found <> [] ->
  communicate (doc_cmd self pt (sorted (Dict.keys found)))
              (_collections_path self) = (rc, out, err) ->
  rc <> 0%Z ->
  load which communicate json_loads ANSIBLE_DOC_SUPPORTED_TYPES self fuel
    = (Ok docs, w) ->
  Dict.get pt docs = Some (JDict []).
Proof.
  intros Hmiss Hin Hl Hne Hc Hrc H. unfold load in H. rewrite Hmiss in H.
  apply bind_Ok_inv in H. destruct H as [u [w1 [w2 [_ [H ->]]]]].
  pose proof (run_cmd_failure _ _ _ _ Hc Hrc) as Hrun.
  destruct (load_loop_Ok _ _ _ _ _ _ _ _ H pt) as [_ [_ L3]].
  destruct (L3 found Hin Hl Hne) as [_ [payloads [outs [Hf [HF Hget]]]]].
  unfold fetch_docs, _run_ansible_doc in Hf. rewrite Hrun in Hf.
  inversion Hf; subst payloads. inversion HF; subst outs.
  exact Hget.
Qed.

(** Every process [load] starts, whatever its outcome, is [ansible-doc] run
    through [/usr/bin/env] with the settings of the loader and [--json], in
    the collections path. *)
Theorem load_runs_only_ansible_doc (fuel : nat) :
  Forall (runs_ansible_doc self)
    (snd (load which communicate json_loads ANSIBLE_DOC_SUPPORTED_TYPES self fuel)).
Proof.
  assert (Hwarn : forall v,
             Forall (runs_ansible_doc self) (snd (_transform_doc_strings fuel v))).
  { intros v. eapply Forall_impl; [|apply transform_doc_strings_events].
    intros e He. destruct e; try discriminate. exact I. }
  assert (Hitems : forall items acc,
             Forall (runs_ansible_doc self) (snd (process_items fuel items acc))).
  { induction items as [|[k v] items IH]; intros acc; cbn [process_items].
    - constructor.
    - apply bind_events; auto. }
  assert (Hlist : forall pt,
             Forall (runs_ansible_doc self)
               (snd (_run_ansible_doc_list communicate json_loads self pt))).
  { intros pt. unfold _run_ansible_doc_list, list_cmd.
    apply run_cmd_runs_ansible_doc.
    apply in_or_app. right. now left. }
  assert (Hdoc : forall pt plugins,
             Forall (runs_ansible_doc self)
               (snd (_run_ansible_doc communicate json_loads self pt plugins))).
  { intros pt plugins. unfold _run_ansible_doc, doc_cmd.
    apply run_cmd_runs_ansible_doc.
    apply in_or_app. right. now left. }
  assert (Hloop : forall types docs0,
             Forall (runs_ansible_doc self)
               (snd (load_loop communicate json_loads self fuel types docs0))).
  { induction types as [|pt types IH]; intros docs0; cbn [load_loop].
    - constructor.
    - apply bind_events; [apply Hlist|]. intros fp.
      apply bind_events.
      { destruct fp; constructor. }
      intros ks. destruct (sorted ks); [apply IH|].
      apply bind_events; [apply Hdoc|]. intros data.
      apply bind_events; [|intros; apply IH].
      unfold _process_doc_strings.
      apply bind_events; [destruct data; constructor|].
      intros items. apply Hitems. }
  unfold load.
  apply bind_events; [repeat constructor|]. intros _.
  destruct (ansible_doc_missing which); [|apply Hloop].
  apply bind_events; [repeat constructor|]. intros _. constructor.
Qed.

(** With [module_path] set, neither command depends on the plugin type:
    all the plugin types of the loader get the same entry, or none. *)
Theorem module_path_gives_same_entry
  (fuel : nat) (docs : dict) (w : list event) (p pt1 pt2 : string) :
  module_path self = Some p ->
  p <> "" ->
  In pt1 (effective_plugin_types ANSIBLE_DOC_SUPPORTED_TYPES self) ->
  In pt2 (effective_plugin_types ANSIBLE_DOC_SUPPORTED_TYPES self) ->
  load which communicate json_loads ANSIBLE_DOC_SUPPORTED_TYPES self fuel
    = (Ok docs, w) ->
  Dict.get pt1 docs = Dict.get pt2 docs.
Proof.
  intros Hp Hne Hin1 Hin2 H.
  assert (Ecmd : forall pt, list_cmd self pt = list_cmd self pt1).
  { intros pt. unfold list_cmd. rewrite Hp.
    apply String.eqb_neq in Hne. now rewrite Hne. }
  assert (Edoc : forall pt plugins,
             doc_cmd self pt plugins = doc_cmd self pt1 plugins).
  { intros pt plugins. unfold doc_cmd. rewrite Hp.
    apply String.eqb_neq in Hne. now rewrite Hne. }
  unfold load in H.
  apply bind_Ok_inv in H. destruct H as [u [w1 [w2 [_ [H _]]]]].
  destruct (ansible_doc_missing which).
  { apply bind_Ok_inv in H. destruct H as [u' [w3 [w4 [_ [H _]]]]].
    now inversion H. }
  destruct (load_loop_listings _ _ _ _ _ H pt1 Hin1) as [found [w' [Hl _]]].
  assert (Hlist : forall pt,
             list_plugins communicate json_loads self pt = Ok (JDict found)).
  { intros pt. unfold list_plugins, _run_ansible_doc_list.
    rewrite Ecmd. unfold _run_ansible_doc_list in Hl. now rewrite Hl. }
  destruct (load_loop_Ok _ _ _ _ _ _ _ _ H pt1) as [A1 [_ A3]].
  destruct (load_loop_Ok _ _ _ _ _ _ _ _ H pt2) as [B1 [_ B3]].
  destruct found as [|e found].
  { rewrite A1, B1; auto. }
  destruct (A3 _ Hin1 (Hlist pt1)) as [_ [pa [oa [Fa [HFa Ga]]]]];
    [discriminate|].
  destruct (B3 _ Hin2 (Hlist pt2)) as [_ [pb [ob [Fb [HFb Gb]]]]];
    [discriminate|].
  unfold fetch_docs, _run_ansible_doc in Fa, Fb.
  rewrite Edoc in Fb. rewrite Fa in Fb. inversion Fb; subst pb.
  rewrite (Forall2_functional _ _ _ _ HFa HFb) in Ga.
  now rewrite Ga, Gb.
Qed.

End LoaderMoreFacts.

Lemma load_entries_are_listed_types_witness :
  exists docs w v,
    load example_which example_communicate example_json_loads []
         example_loader 2 = (Ok docs, w) /\
    Dict.get "module" docs = Some v /\
    ansible_doc_missing example_which = false /\
    In "module" (effective_plugin_types [] example_loader) /\
    exists found payloads,
      list_plugins example_communicate example_json_loads example_loader
        "module" = Ok (JDict found) /\
      found <> [] /\
      v = JDict payloads.
Proof.
  eexists _, _, _. split; [reflexivity|]. split; [reflexivity|].
  exact (load_entries_are_listed_types
           example_which example_communicate example_json_loads []
           example_loader 2 _ _ "module" _ eq_refl eq_refl).
Defined.

Lemma failed_listing_skips_type_witness :
  exists docs w,
    ansible_doc_missing example_which = false /\
    In "filter" (effective_plugin_types [] example_loader) /\
    failing_communicate (list_cmd example_loader "filter")
      (_collections_path example_loader) = (2%Z, "", "no such type") /\
    load example_which failing_communicate example_json_loads []
         example_loader 2 = (Ok docs, w) /\
    Dict.get "filter" docs = None /\
    In (LogErrorAnsibleDoc (list_cmd example_loader "filter") 2 "no such type") w.
Proof.
  eexists _, _. split; [reflexivity|]. split; [now left|].
  split; [reflexivity|]. split; [reflexivity|].
  eapply (failed_listing_skips_type
           example_which failing_communicate example_json_loads []
           example_loader 2 _ _ "filter" 2%Z "" "no such type");
    try reflexivity; [now left|discriminate].
Defined.

Lemma failed_docs_gives_empty_entry_witness :
  let found := [("ns.col.ping", JStr "Ping"); ("ns.col.copy", JStr "Copy")] in
  exists docs w,
    list_plugins failing_communicate example_json_loads example_loader "module"
      = Ok (JDict found) /\
    failing_communicate
      (doc_cmd example_loader "module" (sorted (Dict.keys found)))
      (_collections_path example_loader) = (1%Z, "", "boom") /\
    load example_which failing_communicate example_json_loads []
         example_loader 2 = (Ok docs, w) /\
    Dict.get "module" docs = Some (JDict []).
Proof.
  cbv zeta. eexists _, _. split; [reflexivity|]. split; [reflexivity|].
  split; [reflexivity|].
  eapply (failed_docs_gives_empty_entry
           example_which failing_communicate example_json_loads []
           example_loader 2 _ _ "module"
           [("ns.col.ping", JStr "Ping"); ("ns.col.copy", JStr "Copy")]
           1%Z "" "boom");
    try reflexivity; [right; now left|discriminate|discriminate].
Defined.

Lemma module_path_gives_same_entry_witness :
  exists docs w,
    module_path example_module_path_loader
      = Some "/tmp/ansible_collections/ns/col/plugins/lookup" /\
    load example_which module_path_communicate example_json_loads []
         example_module_path_loader 2 = (Ok docs, w) /\
    Dict.keys docs = ["lookup"; "module"] /\
    Dict.get "lookup" docs = Dict.get "module" docs.
Proof.
  eexists _, _. split; [reflexivity|]. split; [reflexivity|].
  split; [reflexivity|].
  eapply (module_path_gives_same_entry
           example_which module_path_communicate example_json_loads []
           example_module_path_loader 2 _ _
           "/tmp/ansible_collections/ns/col/plugins/lookup" "lookup" "module");
    try reflexivity; [discriminate|now left|right; now left].
Defined.

Lemma sorted_unique l1 :
  forall l2,
    StronglySorted (fun a b => String.leb a b = true) l1 ->
    StronglySorted (fun a b => String.leb a b = true) l2 ->
    Permutation l1 l2 ->
    l1 = l2.
Proof.
  induction l1 as [|a l1 IH]; intros l2 H1 H2 HP.
  - apply Permutation_nil in HP. now subst.
  - destruct l2 as [|b l2].
    { apply Permutation_sym, Permutation_nil in HP. discriminate. }
    inversion H1 as [|? ? S1 F1]; subst.
    inversion H2 as [|? ? S2 F2]; subst.
    assert (Hab : a = b).
    { assert (Ha : In a (b :: l2))
        by (eapply Permutation_in; [exact HP|now left]).
      assert (Hb : In b (a :: l1))
        by (eapply Permutation_in; [apply Permutation_sym; exact HP|now left]).
      destruct Ha as [Ha|Ha]; [now subst|].
      destruct Hb as [Hb|Hb]; [now subst|].
      rewrite Forall_forall in F1, F2.
      apply String.leb_antisym; auto. }
    subst b. f_equal. apply IH; auto.
    eapply Permutation_cons_inv; eauto.
Qed.

(** The request for docs does not depend on the order in which the listing
    gives the plugins: two listings with the same keys give the same
    command. *)
Theorem doc_cmd_independent_of_listing_order
  (self : DocStringLoader) (plugin_type : string) (found1 found2 : dict) :
  Permutation (Dict.keys found1) (Dict.keys found2) ->
  doc_cmd self plugin_type (sorted (Dict.keys found1))
    = doc_cmd self plugin_type (sorted (Dict.keys found2)).
Proof.
  intros HP. f_equal.
  apply sorted_unique; try apply sorted_ordered.
  eapply perm_trans; [apply Permutation_sym, sorted_perm|].
  eapply perm_trans; [exact HP|apply sorted_perm].
Qed.

Lemma doc_cmd_independent_of_listing_order_witness :
  let found1 := [("ns.col.ping", JStr "Ping"); ("ns.col.copy", JStr "Copy")] in
  let found2 := [("ns.col.copy", JNull); ("ns.col.ping", JNull)] in
  Permutation (Dict.keys found1) (Dict.keys found2) /\
  doc_cmd example_loader "module" (sorted (Dict.keys found1))
    = doc_cmd example_loader "module" (sorted (Dict.keys found2)).
Proof.
  cbv zeta.
  assert (HP : Permutation
                 (Dict.keys [("ns.col.ping", JStr "Ping"); ("ns.col.copy", JStr "Copy")])
                 (Dict.keys [("ns.col.copy", JNull); ("ns.col.ping", JNull)]))
    by apply perm_swap.
  split; [exact HP|].
  exact (doc_cmd_independent_of_listing_order example_loader "module" _ _ HP).
Defined.

Lemma handle_nested_tables_idempotent_witness :
  let obj := [("name", JStr "opt2");
              ("suboptions", JDict [("sub1", JDict [("description", JStr "z")])])] in
  let obj' := [("name", JStr "opt2");
               ("suboptions", JList [JDict [("name", JStr "sub1");
                                            ("description", JStr "z")]])] in
  handle_nested_tables 2 obj "suboptions" = (Ok obj', []) /\
  handle_nested_tables 1 obj' "suboptions" = (Ok obj', []).
Proof.
  cbv zeta. split; [reflexivity|].
  exact (handle_nested_tables_idempotent 2 0
           [("name", JStr "opt2");
            ("suboptions", JDict [("sub1", JDict [("description", JStr "z")])])]
           "suboptions" _ [] eq_refl).
Defined.

(** [converted_record] does pin the value under the table key: a record
    whose table has been replaced by [null] is not a converted one. *)
Example converted_record_pins_table_key :
  ~ converted_record "suboptions"
      [("name", JStr "opt"); ("suboptions", JDict [("sub", JDict [])])]
      [("name", JStr "opt"); ("suboptions", JNull)].
Proof.
  intros H. inversion H; subst; try discriminate.
  all: match goal with
       | G : Dict.get _ _ = Some (JList _) |- _ => discriminate G
       end.
Qed.

(** * Exceptions that do not escape *)

Lemma bind_no_raise {A B} (m : M A) (f : A -> M B) e :
  fst m <> Raise e ->
  (forall a, fst (f a) <> Raise e) ->
  fst (bind m f) <> Raise e.
Proof.
  intros Hm Hf. unfold bind. destruct m as [[a|e'|] w]; cbn [fst] in *.
  - specialize (Hf a). destruct (f a). exact Hf.
  - intros E. apply Hm. inversion E. reflexivity.
  - discriminate.
Qed.

Lemma mapM_no_raise {A B} (f : A -> M B) l e :
  (forall x, fst (f x) <> Raise e) ->
  fst (mapM f l) <> Raise e.
Proof.
  intros Hf. induction l as [|x l IH]; cbn [mapM]; [discriminate|].
  apply bind_no_raise; [apply Hf|]. intros y.
  apply bind_no_raise; [exact IH|]. intros ys. discriminate.
Qed.

Lemma dict_to_named_list_no_raise d e : fst (dict_to_named_list d) <> Raise e.
Proof.
  rewrite dict_to_named_list_eq. destruct (all_mappings d); discriminate.
Qed.

Lemma handle_nested_tables_no_raise fuel :
  forall obj table_key e,
    fst (handle_nested_tables fuel obj table_key) <> Raise e.
Proof.
  induction fuel as [|fuel IH]; intros obj tk e; cbn [handle_nested_tables];
    [discriminate|].
  destruct (Dict.get tk obj) as [v|]; [|discriminate].
  destruct v; try discriminate.
  apply bind_no_raise; [apply dict_to_named_list_no_raise|]. intros rows.
  apply bind_no_raise; [apply mapM_no_raise; intros r; apply IH|].
  intros rows'. discriminate.
Qed.

Lemma transform_doc_strings_no_raise fuel data e :
  payload_ok data = true ->
  fst (_transform_doc_strings fuel data) <> Raise e.
Proof.
  destruct data; try discriminate. cbn [payload_ok].
  unfold doc_absent_or_mapping. intros Hdoc. unfold _transform_doc_strings.
  apply bind_no_raise.
  - rewrite transform_options_eq.
    destruct (Dict.get "doc" d) as [v|]; [|discriminate].
    destruct v; try discriminate.
    destruct (Dict.get "options" d0) as [o|]; [|discriminate].
    destruct o; try discriminate.
    apply bind_no_raise; [apply dict_to_named_list_no_raise|]. intros rows.
    apply bind_no_raise;
      [apply mapM_no_raise; intros r; apply handle_nested_tables_no_raise|].
    intros rows'. discriminate.
  - intros data1. apply bind_no_raise; [|intros; discriminate].
    rewrite transform_return_eq.
    destruct (Dict.get "return" data1) as [v|]; [|discriminate].
    destruct v; try discriminate.
    destruct d0 as [|e0 table]; [discriminate|].
    apply bind_no_raise; [apply dict_to_named_list_no_raise|]. intros rows.
    apply bind_no_raise;
      [apply mapM_no_raise; intros r; apply handle_nested_tables_no_raise|].
    intros rows'. discriminate.
Qed.

(** The [TypeError] of unpacking a value that is not a mapping is raised by
    the first comprehension of [dict_to_named_list] and caught: neither it
    nor a [KeyError] or an [AttributeError] leaves [dict_to_named_list]. *)
Theorem dict_to_named_list_catches_type_error (d : dict) :
  (all_mappings d = false ->
   fst (mapM (named_record d) (Dict.keys d)) = Raise TypeError) /\
  fst (dict_to_named_list d) <> Raise TypeError /\
  fst (dict_to_named_list d) <> Raise KeyError /\
  fst (dict_to_named_list d) <> Raise AttributeError.
Proof.
  split.
  - intros Hall. rewrite mapM_named_record
      by (intros k Hk; now apply DictFacts.get_in_keys).
    unfold all_mappings in Hall. now rewrite Hall.
  - repeat split; apply dict_to_named_list_no_raise.
Qed.

(** No [TypeError], [KeyError] or [AttributeError] leaves
    [handle_nested_tables], whatever the record and however deep the tables
    under the key are nested. *)
Theorem handle_nested_tables_raises_none
  (fuel : nat) (obj : dict) (table_key : string) :
  fst (handle_nested_tables fuel obj table_key) <> Raise TypeError /\
  fst (handle_nested_tables fuel obj table_key) <> Raise KeyError /\
  fst (handle_nested_tables fuel obj table_key) <> Raise AttributeError.
Proof. repeat split; apply handle_nested_tables_no_raise. Qed.

(** The normalizer raises [AttributeError] if and only if the payload is not
    a mapping or its ["doc"] is present and not a mapping; and it raises no
    [TypeError] and no [KeyError]. *)
Theorem normalizer_attribute_error_iff (fuel : nat) (data : json) :
  (fst (_transform_doc_strings fuel data) = Raise AttributeError
   <-> payload_ok data = false) /\
  fst (_transform_doc_strings fuel data) <> Raise TypeError /\
  fst (_transform_doc_strings fuel data) <> Raise KeyError.
Proof.
  assert (Hbad : payload_ok data = false ->
                 _transform_doc_strings fuel data = (Raise AttributeError, [])).
  { destruct data; try reflexivity. cbn [payload_ok].
    unfold doc_absent_or_mapping. intros Hdoc. unfold _transform_doc_strings.
    destruct (Dict.get "doc" d) as [v|] eqn:G; [|discriminate].
    now rewrite (transform_options_raises fuel d v G Hdoc). }
  split; [split|].
  - intros H. destruct (payload_ok data) eqn:Hok; auto.
    exfalso. eapply transform_doc_strings_no_raise; eauto.
  - intros Hok. now rewrite (Hbad Hok).
  - destruct (payload_ok data) eqn:Hok.
    + split; now apply transform_doc_strings_no_raise.
    + rewrite (Hbad eq_refl). split; discriminate.
Qed.

Lemma dict_to_named_list_catches_type_error_witness :
  let d := [("a", JDict [("x", JInt 1)]); ("b", JStr "bad")] in
  all_mappings d = false /\
  fst (mapM (named_record d) (Dict.keys d)) = Raise TypeError /\
  fst (dict_to_named_list d) <> Raise TypeError.
Proof.
  cbv zeta. split; [reflexivity|].
  destruct (dict_to_named_list_catches_type_error
              [("a", JDict [("x", JInt 1)]); ("b", JStr "bad")])
    as [H1 [H2 _]].
  split; [exact (H1 eq_refl)|exact H2].
Defined.

Lemma normalizer_attribute_error_iff_witness :
  payload_ok (JDict [("doc", JStr "text")]) = false /\
  fst (_transform_doc_strings 1 (JDict [("doc", JStr "text")]))
    = Raise AttributeError.
Proof.
  split; [reflexivity|].
  exact (proj2 (proj1 (normalizer_attribute_error_iff 1
                         (JDict [("doc", JStr "text")]))) eq_refl).
Defined.
